(** * libco-oop: the coroutine Context (include/libco_oop/context.h,
      src/core/context.cpp)

    A shallow embedding of the [Context] class and of the objects it owns.

    - Pointers ([void*]) and [size_t] are unsigned 64-bit values, kept as [N];
      [nullptr] is [0].  The only arithmetic the class does on them is
      [++switch_count_], whose wrap-around is written out in [size_t_incr].
    - [Context] objects live in a store indexed by their address, because
      [swap] and the move operations take a second object by reference and
      the move assignment compares the two addresses.
    - The three transfer primitives and the two alignment helpers are written
      in assembly (context_switch.S).  [Context] only calls them, so every
      method that reaches a primitive is split where the call is: what it
      does before the call, the call itself as a value of [PrimCall], and
      what it does once the primitive has returned. *)

From Stdlib Require Import NArith ZArith Lia Bool.
From stdpp Require Import base option gmap.

Open Scope N_scope.

(** ** Data model (context.h) *)

Inductive ContextMode : Type :=
| MINIMAL
| COMPLETE.

Record ContextConfig : Type := mkContextConfig {
  mode : ContextMode;
  save_fpu : bool;
  enable_debugging : bool
}.

(** [ContextConfig() = default]: the default member initializers. *)
Definition ContextConfig_default : ContextConfig :=
  {| mode := COMPLETE; save_fpu := true; enable_debugging := false |}.

(** [struct alignas(16) RegisterState], x86_64 branch, fields in declaration
    order. *)
Record RegisterState : Type := mkRegisterState {
  r12 : N;
  r13 : N;
  r14 : N;
  r15 : N;
  rip : N;
  rsp : N;
  rbx : N;
  rbp : N;
  fpucw : N;
  mxcsr : N;
  _padding : N
}.

(** The private members of [class Context]. *)
Record Context : Type := mkContext {
  registers_ : RegisterState;
  config_ : ContextConfig;
  is_valid_ : bool;
  switch_count_ : N
}.

Definition nullptr : N := 0.

(** [++n] on a [size_t]. *)
Definition SIZE_MAX : N := 2 ^ 64 - 1.
Definition size_t_incr (n : N) : N := (n + 1) mod 2 ^ 64.

(** What [std::memset(&registers_, 0, sizeof(registers_))] leaves. *)
Definition zero_registers : RegisterState :=
  {| r12 := 0; r13 := 0; r14 := 0; r15 := 0; rip := 0; rsp := 0;
     rbx := 0; rbp := 0; fpucw := 0; mxcsr := 0; _padding := 0 |}.

(** Field updates used by the methods below. *)
Definition with_registers (r : RegisterState) (c : Context) : Context :=
  {| registers_ := r; config_ := config_ c;
     is_valid_ := is_valid_ c; switch_count_ := switch_count_ c |}.

Definition with_is_valid (b : bool) (c : Context) : Context :=
  {| registers_ := registers_ c; config_ := config_ c;
     is_valid_ := b; switch_count_ := switch_count_ c |}.

Definition with_switch_count (n : N) (c : Context) : Context :=
  {| registers_ := registers_ c; config_ := config_ c;
     is_valid_ := is_valid_ c; switch_count_ := n |}.

Definition with_rsp (p : N) (r : RegisterState) : RegisterState :=
  {| r12 := r12 r; r13 := r13 r; r14 := r14 r; r15 := r15 r; rip := rip r;
     rsp := p; rbx := rbx r; rbp := rbp r; fpucw := fpucw r;
     mxcsr := mxcsr r; _padding := _padding r |}.

Definition with_rip (p : N) (r : RegisterState) : RegisterState :=
  {| r12 := r12 r; r13 := r13 r; r14 := r14 r; r15 := r15 r; rip := p;
     rsp := rsp r; rbx := rbx r; rbp := rbp r; fpucw := fpucw r;
     mxcsr := mxcsr r; _padding := _padding r |}.

Definition with_fpu (cw csr : N) (r : RegisterState) : RegisterState :=
  {| r12 := r12 r; r13 := r13 r; r14 := r14 r; r15 := r15 r; rip := rip r;
     rsp := rsp r; rbx := rbx r; rbp := rbp r; fpucw := cw;
     mxcsr := csr; _padding := _padding r |}.

(** ** Alignment helpers *)

(** Modelled from the spec: the assembly routine [libco_oop_is_stack_aligned]
    of context_switch.S is missing; the header documents it as the test for
    16-byte alignment. *)
Definition libco_oop_is_stack_aligned (sp : N) : bool := sp mod 16 =? 0.

(** Modelled from the spec: the assembly routine
    [libco_oop_align_stack_pointer] of context_switch.S is missing; the spec
    has it round an arbitrary pointer down to the required alignment. *)
Definition libco_oop_align_stack_pointer (sp : N) : N := sp - sp mod 16.

Module context_utils.

Definition is_stack_aligned (sp : N) : bool :=
  if sp =? nullptr then false else libco_oop_is_stack_aligned sp.

Definition align_stack_pointer (sp : N) : N :=
  if sp =? nullptr then nullptr else libco_oop_align_stack_pointer sp.

End context_utils.

(** ** Methods that touch one object and no primitive *)

Definition initialize_registers (c : Context) : Context :=
  let c := with_registers zero_registers c in
  if save_fpu (config_ c)
  then with_registers (with_fpu 0x037F 0x1F80 (registers_ c)) c
  else c.

(** [Context::Context(const ContextConfig&)].  [registers_] has no member
    initializer: [uninit] is whatever the storage held. *)
Definition Context_ctor (uninit : RegisterState) (config : ContextConfig)
  : Context :=
  initialize_registers
    {| registers_ := uninit; config_ := config;
       is_valid_ := false; switch_count_ := 0 |}.

Definition validate_state (c : Context) : bool :=
  if negb (is_valid_ c) then false
  else if rsp (registers_ c) =? nullptr then false
  else if negb (context_utils.is_stack_aligned (rsp (registers_ c))) then false
  else if (rip (registers_ c) =? nullptr) && (0 <? switch_count_ c) then false
  else true.

Definition is_valid (c : Context) : bool :=
  is_valid_ c && validate_state c.

Definition reset (c : Context) : Context :=
  let c := with_registers zero_registers c in
  let c := with_is_valid false c in
  let c := with_switch_count 0 c in
  initialize_registers c.

Definition get_stack_pointer (c : Context) : N := rsp (registers_ c).

Definition set_stack_pointer (sp : N) (c : Context) : bool * Context :=
  if sp =? nullptr then (false, c)
  else
    let sp := if negb (context_utils.is_stack_aligned sp)
              then context_utils.align_stack_pointer sp else sp in
    let c := with_registers (with_rsp sp (registers_ c)) c in
    let c := if negb (is_valid_ c)
             then with_is_valid (negb (rip (registers_ c) =? nullptr)) c
             else c in
    (true, c).

Definition get_instruction_pointer (c : Context) : N := rip (registers_ c).

Definition set_instruction_pointer (ip : N) (c : Context) : bool * Context :=
  if ip =? nullptr then (false, c)
  else
    let c := with_registers (with_rip ip (registers_ c)) c in
    let c := if negb (is_valid_ c)
             then with_is_valid (negb (rsp (registers_ c) =? nullptr)) c
             else c in
    (true, c).

Definition get_config (c : Context) : ContextConfig := config_ c.

Definition get_switch_count (c : Context) : N := switch_count_ c.

(** ** The machine: live register file and the [Context] objects in memory *)

(** [cpu] holds the registers the primitives save and load, as seen at the
    call of a primitive: [rsp] is the caller's stack pointer and [rip] the
    return address.  [objs] maps the address of each live [Context] to its
    members; the address of an object also stands for [&registers_]. *)
Record Machine : Type := mkMachine {
  cpu : RegisterState;
  objs : gmap N Context
}.

Definition set_obj (this : N) (c : Context) (m : Machine) : Machine :=
  {| cpu := cpu m; objs := <[this := c]> (objs m) |}.

(** A call of a transfer primitive with its arguments. *)
Inductive PrimCall : Type :=
| Call_context_save (regs : N) (save_fpu : bool)
| Call_context_restore (regs : N) (save_fpu : bool)
| Call_context_swap (from_regs to_regs : N) (save_fpu : bool).

(** How a call of a method ends. *)
Inductive Outcome (R : Type) : Type :=
| Returned (r : R) (m : Machine)
    (* returned [r] to its caller, leaving the machine as [m] *)
| Terminated
    (* std::terminate() *)
| Switched (call : PrimCall) (m : Machine).
    (* [call] loaded another snapshot: control is at that snapshot's
       instruction pointer with the machine as [m] *)

Arguments Returned {R} r m.
Arguments Terminated {R}.
Arguments Switched {R} call m.

(** *** The transfer primitives *)

(** Return values of [libco_oop_context_save] (context.h: 0 on the first
    call, 1 when coming back from a restore). *)
Definition FIRST_CAPTURE : Z := 0.
Definition RESUMED : Z := 1.

(** Modelled from the spec: the store half of the primitives of
    context_switch.S, which is missing.  It stores the caller's callee-saved
    registers, stack pointer and return address into [dest], and the FPU/SSE
    control words when [save_fpu] is set. *)
Definition capture (live dest : RegisterState) (save_fpu : bool)
  : RegisterState :=
  {| r12 := r12 live; r13 := r13 live; r14 := r14 live; r15 := r15 live;
     rip := rip live; rsp := rsp live; rbx := rbx live; rbp := rbp live;
     fpucw := if save_fpu then fpucw live else fpucw dest;
     mxcsr := if save_fpu then mxcsr live else mxcsr dest;
     _padding := _padding dest |}.

(** Modelled from the spec: the load half of the primitives of
    context_switch.S, which is missing.  It loads [src]'s registers, stack
    pointer and return address into the register file, and the FPU/SSE
    control words when [save_fpu] is set. *)
Definition load (src live : RegisterState) (save_fpu : bool)
  : RegisterState :=
  {| r12 := r12 src; r13 := r13 src; r14 := r14 src; r15 := r15 src;
     rip := rip src; rsp := rsp src; rbx := rbx src; rbp := rbp src;
     fpucw := if save_fpu then fpucw src else fpucw live;
     mxcsr := if save_fpu then mxcsr src else mxcsr live;
     _padding := _padding live |}.

(** Modelled from the spec: [libco_oop_context_save] of context_switch.S is
    missing.  This is its first return: the block is written and the
    discriminator is [FIRST_CAPTURE].  Its second return, with [RESUMED],
    happens when a later restore or swap loads the block. *)
Definition libco_oop_context_save (regs : N) (save_fpu : bool) (m : Machine)
  : option (Z * Machine) :=
  c ← objs m !! regs;
  Some (FIRST_CAPTURE,
        set_obj regs (with_registers (capture (cpu m) (registers_ c) save_fpu) c) m).

(** Modelled from the spec: [libco_oop_context_restore] of context_switch.S
    is missing.  It loads the block and never returns to its caller. *)
Definition libco_oop_context_restore (regs : N) (save_fpu : bool) (m : Machine)
  : option Machine :=
  c ← objs m !! regs;
  Some {| cpu := load (registers_ c) (cpu m) save_fpu; objs := objs m |}.

(** Modelled from the spec: [libco_oop_context_swap] of context_switch.S is
    missing.  It is the save into [from_regs] immediately followed by the
    load from [to_regs]; it returns to its caller only when something later
    transfers back into [from_regs]. *)
Definition libco_oop_context_swap (from_regs to_regs : N) (save_fpu : bool)
  (m : Machine) : option Machine :=
  a ← objs m !! from_regs;
  let m1 := set_obj from_regs
              (with_registers (capture (cpu m) (registers_ a) save_fpu) a) m in
  b ← objs m1 !! to_regs;
  Some {| cpu := load (registers_ b) (cpu m1) save_fpu; objs := objs m1 |}.

(** ** Methods that call a primitive

    The primitives are declared [noexcept], so the [catch (...)] handlers of
    [save] and [swap] have nothing to catch and are left out. *)

(** [Context::save], the statements after the call of the primitive, run
    with its return value [result] on the object as it is in memory then. *)
Definition save_return (this : N) (result : Z) (m : Machine)
  : option (Outcome bool) :=
  c ← objs m !! this;
  if (result =? 0)%Z
  then Some (Returned true (set_obj this (with_is_valid true c) m))
  else Some (Returned true
               (set_obj this
                  (with_switch_count (size_t_incr (switch_count_ c)) c) m)).

(** [Context::save] as its caller sees it first: the primitive captures and
    hands back its first return value. *)
Definition save (this : N) (m : Machine) : option (Outcome bool) :=
  c ← objs m !! this;
  '(result, m1) ← libco_oop_context_save this (save_fpu (config_ c)) m;
  save_return this result m1.

Definition restore (this : N) (m : Machine) : option (Outcome unit) :=
  c ← objs m !! this;
  if negb (is_valid_ c) || negb (validate_state c)
  then Some Terminated
  else
    m1 ← libco_oop_context_restore this (save_fpu (config_ c)) m;
    Some (Switched (Call_context_restore this (save_fpu (config_ c))) m1).

(** [Context::swap] up to and including the call of the primitive. *)
Definition swap (this other : N) (m : Machine) : option (Outcome bool) :=
  a ← objs m !! this;
  b ← objs m !! other;
  if negb (validate_state a) || negb (validate_state b)
  then Some (Returned false m)
  else
    let save_fpu := save_fpu (config_ a) && save_fpu (config_ b) in
    m1 ← libco_oop_context_swap this other save_fpu m;
    Some (Switched (Call_context_swap this other save_fpu) m1).

(** [Context::swap], the statements after the call of the primitive: they
    run when control comes back into [this]'s block, on the object as it is
    in memory then. *)
Definition swap_return (this : N) (m : Machine) : option (Outcome bool) :=
  c ← objs m !! this;
  let c := with_switch_count (size_t_incr (switch_count_ c)) c in
  let c := with_is_valid true c in
  Some (Returned true (set_obj this c m)).

(** ** Move operations *)

Definition moved_from (c : Context) : Context :=
  with_switch_count 0 (with_is_valid false c).

(** [Context::Context(Context&&)]: [this] is the storage of the new
    object. *)
Definition move_ctor (this other : N) (h : gmap N Context)
  : option (gmap N Context) :=
  o ← h !! other;
  let h := <[this := {| registers_ := registers_ o; config_ := config_ o;
                        is_valid_ := is_valid_ o;
                        switch_count_ := switch_count_ o |}]> h in
  o ← h !! other;
  Some (<[other := moved_from o]> h).

(** [Context::operator=(Context&&)]. *)
Definition move_assign (this other : N) (h : gmap N Context)
  : option (gmap N Context) :=
  _ ← h !! this;
  o ← h !! other;
  if negb (this =? other) then
    let h := <[this := {| registers_ := registers_ o; config_ := config_ o;
                          is_valid_ := is_valid_ o;
                          switch_count_ := switch_count_ o |}]> h in
    o ← h !! other;
    Some (<[other := moved_from o]> h)
  else Some h.

(** ** Notions used in the statements *)

(** The register block [initialize_registers] leaves. *)
Definition fresh_registers (config : ContextConfig) : RegisterState :=
  if save_fpu config then with_fpu 0x037F 0x1F80 zero_registers
  else zero_registers.

(** The INVALID state of the life cycle: the flag is clear and nothing has
    been counted, as the constructor, [reset] and a move leave an object. *)
Definition INVALID (c : Context) : Prop :=
  is_valid_ c = false /\ switch_count_ c = 0.

(** The register file at the call of a primitive from running code: the
    stack pointer and the return address are not null, and the stack pointer
    is 16-byte aligned as the System V ABI has it at a call (the unit tests
    assert this of the stack pointer that [save] stores). *)
Definition call_site (live : RegisterState) : Prop :=
  rsp live <> nullptr /\ rsp live mod 16 = 0 /\ rip live <> nullptr.

(** The registers every transfer stores and loads, whatever [save_fpu]. *)
Definition transfer_registers (r : RegisterState) : list N :=
  [r12 r; r13 r; r14 r; r15 r; rip r; rsp r; rbx r; rbp r].

(** ** One object under a sequence of public operations

    What each public operation leaves of the object it is called on.  [swap]
    is taken from the call to its return, the object untouched while it is
    suspended; the object another Context is moved into takes that
    Context's state. *)
Inductive Op : Type :=
| op_save (live : RegisterState)
| op_save_resumed
| op_swap (live : RegisterState) (other_valid other_save_fpu : bool)
| op_reset
| op_set_stack_pointer (sp : N)
| op_set_instruction_pointer (ip : N)
| op_moved_from
| op_moved_into (source : Context).

Definition step (o : Op) (c : Context) : Context :=
  match o with
  | op_save live =>
      with_is_valid true
        (with_registers
           (capture live (registers_ c) (save_fpu (config_ c))) c)
  | op_save_resumed =>
      with_switch_count (size_t_incr (switch_count_ c)) c
  | op_swap live other_valid other_save_fpu =>
      if negb (validate_state c) || negb other_valid then c
      else
        let fpu := save_fpu (config_ c) && other_save_fpu in
        let c := with_registers (capture live (registers_ c) fpu) c in
        let c := with_switch_count (size_t_incr (switch_count_ c)) c in
        with_is_valid true c
  | op_reset => reset c
  | op_set_stack_pointer sp => snd (set_stack_pointer sp c)
  | op_set_instruction_pointer ip => snd (set_instruction_pointer ip c)
  | op_moved_from => moved_from c
  | op_moved_into source => source
  end.

Definition run (ops : list Op) (c : Context) : Context :=
  fold_left (fun c o => step o c) ops c.

(** The validity flag is set only over a non-null stored stack pointer. *)
Definition flag_sound (c : Context) : Prop :=
  is_valid_ c = true -> rsp (registers_ c) <> nullptr.

(** Operations with arguments as running code supplies them: a capture
    happens at a call site, a stack pointer handed to the setter is null or
    at least 16, and a Context moved in has a sound flag. *)
Definition benign (o : Op) : Prop :=
  match o with
  | op_save live => call_site live
  | op_swap live _ _ => call_site live
  | op_set_stack_pointer sp => sp = nullptr \/ 16 <= sp
  | op_moved_into source => flag_sound source
  | _ => True
  end.



(** Operations on the object itself, as opposed to a move into it. *)
Definition in_place (o : Op) : Prop :=
  match o with
  | op_moved_into _ => False
  | _ => True
  end.

(** ** The test helpers of tests/unit/test_context.cpp *)

Module RegisterChecker.

(** [RegisterSnapshot]; [values] is the array of 16 [uint64_t]. *)
Record RegisterSnapshot : Type := mkRegisterSnapshot {
  values : list N;
  stack_ptr : N;
  instruction_ptr : N;
  checksum : N
}.

(** Conversion to [uint32_t]. *)
Definition u32 (x : N) : N := x mod 2 ^ 32.

(** The default constructor. *)
Definition RegisterSnapshot_ctor : RegisterSnapshot :=
  {| values := repeat 0 16; stack_ptr := nullptr;
     instruction_ptr := nullptr; checksum := 0 |}.

Definition calculate_checksum (s : RegisterSnapshot) : N :=
  let sum :=
    fold_left
      (fun sum v =>
         let sum := N.lxor sum (u32 (N.land v 0xFFFFFFFF)) in
         N.lxor sum (u32 (N.land (N.shiftr v 32) 0xFFFFFFFF)))
      (values s) 0 in
  let sum := u32 (N.lxor sum (N.land (stack_ptr s) 0xFFFFFFFF)) in
  u32 (N.lxor sum (N.land (instruction_ptr s) 0xFFFFFFFF)).

Definition update_checksum (s : RegisterSnapshot) : RegisterSnapshot :=
  {| values := values s; stack_ptr := stack_ptr s;
     instruction_ptr := instruction_ptr s;
     checksum := calculate_checksum s |}.

Definition verify_checksum (s : RegisterSnapshot) : bool :=
  checksum s =? calculate_checksum s.

(** [capture_current_state]; [sp] is what
    [context_utils::get_current_stack_pointer()] returns. *)
Definition capture_current_state (sp : N) : RegisterSnapshot :=
  update_checksum
    {| values :=
         map (fun i => (0xDEADBEEF00000000 + N.of_nat i) mod 2 ^ 64) (seq 0 16);
       stack_ptr := sp;
       instruction_ptr := nullptr;
       checksum := 0 |}.

Definition compare_snapshots (before after : RegisterSnapshot) : bool :=
  verify_checksum before && verify_checksum after.

End RegisterChecker.

Module MemoryTracker.

Record MemoryTracker : Type := mkMemoryTracker {
  initial_usage_ : N;
  peak_usage_ : N;
  final_usage_ : N
}.

Definition get_current_memory_usage : N := 1024 * 1024.

Definition MemoryTracker_ctor : MemoryTracker :=
  {| initial_usage_ := get_current_memory_usage;
     peak_usage_ := get_current_memory_usage;
     final_usage_ := get_current_memory_usage |}.

Definition update_peak (t : MemoryTracker) : MemoryTracker :=
  let current := get_current_memory_usage in
  if peak_usage_ t <? current
  then {| initial_usage_ := initial_usage_ t; peak_usage_ := current;
          final_usage_ := final_usage_ t |}
  else t.

Definition finalize (t : MemoryTracker) : MemoryTracker :=
  {| initial_usage_ := initial_usage_ t; peak_usage_ := peak_usage_ t;
     final_usage_ := get_current_memory_usage |}.

Definition get_leak_amount (t : MemoryTracker) : N :=
  if initial_usage_ t <? final_usage_ t
  then final_usage_ t - initial_usage_ t else 0.

(** The calls the fixture and the tests make on a tracker. *)
Inductive Call : Type :=
| call_update_peak
| call_finalize.

Definition call (t : MemoryTracker) (k : Call) : MemoryTracker :=
  match k with
  | call_update_peak => update_peak t
  | call_finalize => finalize t
  end.

End MemoryTracker.

(** ** Concrete objects and machines *)

(** A valid Context that has been switched three times. *)
Definition switched_thrice : Context :=
  {| registers_ := with_rip 4096 (with_rsp 32 zero_registers);
     config_ := ContextConfig_default;
     is_valid_ := true;
     switch_count_ := 3 |}.

(** Two valid Contexts at the addresses 1 and 2, and a register file that
    differs from both snapshots. *)
Definition ex_b : Context :=
  {| registers_ := with_rip 8192 (with_rsp 64 zero_registers);
     config_ := mkContextConfig MINIMAL false false;
     is_valid_ := true;
     switch_count_ := 0 |}.

Definition ex_live : RegisterState :=
  with_rip 12288 (with_rsp 48 zero_registers).

Definition ex_machine : Machine :=
  {| cpu := ex_live; objs := {[ 1 := switched_thrice; 2 := ex_b ]} |}.

(** A freshly created Context at 1 next to the valid one at 2. *)
Definition ex_fresh : Context :=
  Context_ctor zero_registers ContextConfig_default.

Definition ex_rejecting : Machine :=
  {| cpu := ex_live; objs := {[ 1 := ex_fresh; 2 := ex_b ]} |}.

(** [ex_machine] after the swap primitive has run for [swap 1 2]. *)
Definition ex_switched : Machine :=
  {| cpu := load (registers_ ex_b) ex_live false;
     objs := <[1 := with_registers
                      (capture ex_live (registers_ switched_thrice) false)
                      switched_thrice]> (objs ex_machine) |}.

(** A fresh Context that is saved, has its stack pointer set to 8, is
    moved from and reset. *)
Definition ex_ops : list Op :=
  [op_save ex_live; op_set_stack_pointer 8; op_moved_from; op_reset].


(** [ex_rejecting] after [save] on the fresh Context at 1. *)
Definition ex_saved : Machine :=
  set_obj 1 (step (op_save ex_live) ex_fresh) ex_rejecting.

Ltac site := unfold call_site, nullptr; simpl; repeat split; lia.

(** * Properties *)

(** ** Validity *)

Lemma is_valid_validate_state (c : Context) :
  is_valid c = validate_state c.
Proof.
  unfold is_valid, validate_state.
  destruct (is_valid_ c); reflexivity.
Qed.

(** What [validate_state] checks, as a proposition. *)
Lemma validate_state_true (c : Context) :
  validate_state c = true <->
  is_valid_ c = true /\
  rsp (registers_ c) <> 0 /\
  rsp (registers_ c) mod 16 = 0 /\
  (rip (registers_ c) = 0 -> switch_count_ c = 0).
Proof.
  unfold validate_state, context_utils.is_stack_aligned,
    libco_oop_is_stack_aligned, nullptr.
  destruct (is_valid_ c); simpl; [|intuition discriminate].
  destruct (N.eqb_spec (rsp (registers_ c)) 0) as [E|E]; simpl;
    [intuition (try discriminate; try contradiction)|].
  destruct (N.eqb_spec (rsp (registers_ c) mod 16) 0) as [A|A]; simpl;
    [|intuition (try discriminate; try contradiction)].
  destruct (N.eqb_spec (rip (registers_ c)) 0) as [I|I]; simpl.
  - destruct (N.ltb_spec 0 (switch_count_ c)) as [P|P]; simpl.
    + split; [discriminate|]. intros (_ & _ & _ & H). specialize (H I). lia.
    + split; [|reflexivity]. intros _. repeat split; auto. intros _. lia.
  - split; [|reflexivity]. intros _. repeat split; auto.
    intros H. contradiction.
Qed.

Lemma is_valid_true (c : Context) :
  is_valid c = true <->
  is_valid_ c = true /\
  rsp (registers_ c) <> 0 /\
  rsp (registers_ c) mod 16 = 0 /\
  (rip (registers_ c) = 0 -> switch_count_ c = 0).
Proof.
  rewrite is_valid_validate_state. apply validate_state_true.
Qed.

(** ** Rejected swap *)

(** C1: if [a.is_valid()] or [b.is_valid()] is false, [a.swap(b)] returns
    false and the machine (both objects with their register block, validity
    flag, switch counter and configuration, and the register file) is as it
    was before the call. *)
Theorem swap_invalid_rejected
  (this other : N) (a b : Context) (m : Machine) :
  objs m !! this = Some a ->
  objs m !! other = Some b ->
  is_valid a = false \/ is_valid b = false ->
  swap this other m = Some (Returned false m).
Proof.
  intros Ha Hb Hinv.
  unfold swap. rewrite Ha. simpl. rewrite Hb. simpl.
  rewrite !is_valid_validate_state in Hinv.
  destruct Hinv as [H|H]; rewrite H; simpl.
  - reflexivity.
  - rewrite orb_true_r. reflexivity.
Qed.

(** ** Restore *)

(** C2: [restore()] on a Context that is not valid ends in
    [std::terminate()]; on a valid one the terminating branch is not taken
    and the restore primitive is called on this Context's block with its
    configured [save_fpu], which loads that block into the register file. *)
Theorem restore_terminates_or_transfers
  (this : N) (c : Context) (m : Machine) :
  objs m !! this = Some c ->
  (is_valid c = false -> restore this m = Some Terminated) /\
  (is_valid c = true ->
   restore this m <> Some Terminated /\
   restore this m =
     Some (Switched (Call_context_restore this (save_fpu (config_ c)))
             {| cpu := load (registers_ c) (cpu m) (save_fpu (config_ c));
                objs := objs m |})).
Proof.
  intros Hc. unfold restore, libco_oop_context_restore.
  rewrite Hc. simpl. split; intros Hv.
  - rewrite is_valid_validate_state in Hv. rewrite Hv. simpl.
    rewrite orb_true_r. reflexivity.
  - pose proof Hv as Hv'. rewrite is_valid_validate_state in Hv'.
    apply is_valid_true in Hv as (Hf & _).
    rewrite Hf, Hv'. simpl. split; [discriminate|reflexivity].
Qed.

(** ** Construction and reset *)

Lemma initialize_registers_eq (c : Context) :
  initialize_registers c = with_registers (fresh_registers (config_ c)) c.
Proof.
  unfold initialize_registers, fresh_registers. simpl.
  destruct (save_fpu (config_ c)); reflexivity.
Qed.

(** C4: a freshly created Context and a Context after [reset()] are in the
    same state: not valid, switch count 0, and a register block that is all
    zero, except that with [save_fpu] the FPU control word is 0x037F and
    MXCSR is 0x1F80, both non-zero. *)
Theorem fresh_and_reset_state
  (uninit : RegisterState) (config : ContextConfig) (c : Context) :
  reset c = Context_ctor uninit (config_ c) /\
  is_valid (Context_ctor uninit config) = false /\
  get_switch_count (Context_ctor uninit config) = 0 /\
  get_config (Context_ctor uninit config) = config /\
  registers_ (Context_ctor uninit config) =
    (if save_fpu config
     then {| r12 := 0; r13 := 0; r14 := 0; r15 := 0; rip := 0; rsp := 0;
             rbx := 0; rbp := 0; fpucw := 0x037F; mxcsr := 0x1F80;
             _padding := 0 |}
     else zero_registers) /\
  0x037F <> 0 /\ 0x1F80 <> 0.
Proof.
  unfold reset, Context_ctor. rewrite !initialize_registers_eq.
  unfold fresh_registers. simpl.
  repeat split; try (destruct (save_fpu config); reflexivity); discriminate.
Qed.

(** ** The stack-pointer setter *)

(** The value [set_stack_pointer] stores for a non-null argument. *)
Lemma stored_stack_pointer (sp : N) :
  sp <> nullptr ->
  (if negb (context_utils.is_stack_aligned sp)
   then context_utils.align_stack_pointer sp else sp) = sp - sp mod 16.
Proof.
  unfold context_utils.is_stack_aligned, context_utils.align_stack_pointer,
    libco_oop_is_stack_aligned, libco_oop_align_stack_pointer, nullptr.
  intros Hsp. destruct (N.eqb_spec sp 0) as [E|_]; [contradiction|].
  destruct (N.eqb_spec (sp mod 16) 0) as [A|A]; simpl; lia.
Qed.

Lemma set_stack_pointer_nonnull (sp : N) (c : Context) :
  sp <> nullptr ->
  set_stack_pointer sp c =
    (true,
     {| registers_ := with_rsp (sp - sp mod 16) (registers_ c);
        config_ := config_ c;
        is_valid_ := is_valid_ c || negb (rip (registers_ c) =? nullptr);
        switch_count_ := switch_count_ c |}).
Proof.
  intros Hsp. unfold set_stack_pointer.
  rewrite (stored_stack_pointer sp Hsp).
  destruct (N.eqb_spec sp nullptr) as [E|_]; [contradiction|].
  destruct c as [r cf v n]. simpl. destruct v; reflexivity.
Qed.

Lemma set_instruction_pointer_nonnull (ip : N) (c : Context) :
  ip <> nullptr ->
  set_instruction_pointer ip c =
    (true,
     {| registers_ := with_rip ip (registers_ c);
        config_ := config_ c;
        is_valid_ := is_valid_ c || negb (rsp (registers_ c) =? nullptr);
        switch_count_ := switch_count_ c |}).
Proof.
  intros Hip. unfold set_instruction_pointer.
  destruct (N.eqb_spec ip nullptr) as [E|_]; [contradiction|].
  destruct c as [r cf v n]. simpl. destruct v; reflexivity.
Qed.

(** C5: [set_stack_pointer(nullptr)] returns false and leaves the Context
    as it was; for a non-null [p] it returns true and afterwards
    [get_stack_pointer()] is a multiple of 16 and at most [p]: [p] itself
    when [p] is aligned, [p] rounded down otherwise. *)
Theorem set_stack_pointer_aligns (p : N) (c : Context) :
  set_stack_pointer nullptr c = (false, c) /\
  (p <> nullptr ->
   fst (set_stack_pointer p c) = true /\
   get_stack_pointer (snd (set_stack_pointer p c)) mod 16 = 0 /\
   get_stack_pointer (snd (set_stack_pointer p c)) <= p /\
   (p mod 16 = 0 -> get_stack_pointer (snd (set_stack_pointer p c)) = p) /\
   (p mod 16 <> 0 ->
    get_stack_pointer (snd (set_stack_pointer p c)) = 16 * (p / 16))).
Proof.
  split; [reflexivity|].
  intros Hp. rewrite (set_stack_pointer_nonnull p c Hp).
  unfold get_stack_pointer. simpl.
  pose proof (N.div_mod' p 16) as D.
  pose proof (N.mod_upper_bound p 16 ltac:(discriminate)) as U.
  assert (R : p - p mod 16 = 16 * (p / 16)) by lia.
  repeat split.
  - rewrite R, N.mul_comm. apply N.Div0.mod_mul.
  - apply N.le_sub_l.
  - intros A. rewrite A. apply N.sub_0_r.
  - intros _. exact R.
Qed.

Lemma round_down_aligned (sp : N) : (sp - sp mod 16) mod 16 = 0.
Proof.
  pose proof (N.div_mod' sp 16) as D.
  replace (sp - sp mod 16) with (sp / 16 * 16).
  - apply N.Div0.mod_mul.
  - rewrite D at 2. rewrite N.add_sub. apply N.mul_comm.
Qed.

Lemma round_down_nonnull (sp : N) : 16 <= sp -> sp - sp mod 16 <> 0.
Proof.
  intros H. pose proof (N.mod_upper_bound sp 16 ltac:(discriminate)) as U.
  lia.
Qed.

Lemma round_down_low (sp : N) : sp < 16 -> sp - sp mod 16 = 0.
Proof.
  intros H. rewrite (N.mod_small sp 16 H). apply N.sub_diag.
Qed.

(** ** Seeding through the pointer setters *)

Lemma INVALID_not_valid (c : Context) : INVALID c -> is_valid c = false.
Proof.
  intros [H _]. unfold is_valid. rewrite H. reflexivity.
Qed.

Lemma fresh_INVALID (uninit : RegisterState) (config : ContextConfig) :
  INVALID (Context_ctor uninit config).
Proof.
  unfold Context_ctor. rewrite initialize_registers_eq. split; reflexivity.
Qed.

(** C6, as written, fails: on a freshly created Context (invalid, both
    pointers null) the non-null stack pointer 8 is rounded down to null, so
    after both setters have returned true, in either order, [is_valid()] is
    still false. *)
Lemma seeding_low_stack_pointer_stays_invalid :
  let c0 := Context_ctor zero_registers ContextConfig_default in
  let sp_first := set_stack_pointer 8 c0 in
  let sp_then_ip := set_instruction_pointer 4096 (snd sp_first) in
  let ip_first := set_instruction_pointer 4096 c0 in
  let ip_then_sp := set_stack_pointer 8 (snd ip_first) in
  is_valid c0 = false /\ 8 <> nullptr /\ 4096 <> nullptr /\
  fst sp_first = true /\ fst sp_then_ip = true /\
  is_valid (snd sp_then_ip) = false /\
  fst ip_first = true /\ fst ip_then_sp = true /\
  is_valid (snd ip_then_sp) = false.
Proof.
  cbv zeta. repeat split; try reflexivity; discriminate.
Qed.

(** C6, amended: starting from an invalid Context (flag clear, switch count
    0), [set_stack_pointer] with a pointer that is at least 16 and
    [set_instruction_pointer] with a non-null pointer, in either order, both
    return true and make [is_valid()] true with switch count 0; either
    setter alone, while the other stored pointer is still null, leaves the
    Context invalid. *)
Theorem seeding_makes_valid (sp ip : N) (c : Context) :
  INVALID c ->
  16 <= sp ->
  ip <> nullptr ->
  let sp_first := set_stack_pointer sp c in
  let sp_then_ip := set_instruction_pointer ip (snd sp_first) in
  let ip_first := set_instruction_pointer ip c in
  let ip_then_sp := set_stack_pointer sp (snd ip_first) in
  (fst sp_first = true /\ fst sp_then_ip = true /\
   is_valid (snd sp_then_ip) = true /\
   get_switch_count (snd sp_then_ip) = 0) /\
  (fst ip_first = true /\ fst ip_then_sp = true /\
   is_valid (snd ip_then_sp) = true /\
   get_switch_count (snd ip_then_sp) = 0) /\
  (get_instruction_pointer c = nullptr -> is_valid (snd sp_first) = false) /\
  (get_stack_pointer c = nullptr -> is_valid (snd ip_first) = false).
Proof.
  intros [Hf Hn] Hsp Hip. cbv zeta.
  assert (Hsp0 : sp <> nullptr) by (unfold nullptr; lia).
  pose proof (round_down_aligned sp) as A.
  pose proof (round_down_nonnull sp Hsp) as NZ.
  rewrite !(set_stack_pointer_nonnull sp _ Hsp0).
  rewrite !(set_instruction_pointer_nonnull ip _ Hip).
  cbn [fst snd registers_ config_ is_valid_ switch_count_ rsp rip
       with_rsp with_rip get_switch_count get_instruction_pointer
       get_stack_pointer].
  rewrite Hf, Hn. cbn [orb].
  assert (Eip : (ip =? nullptr) = false) by (apply N.eqb_neq; exact Hip).
  assert (Esp : (sp - sp mod 16 =? nullptr) = false)
    by (apply N.eqb_neq; exact NZ).
  rewrite Eip, Esp. cbn [negb orb].
  unfold get_instruction_pointer, get_stack_pointer.
  repeat split.
  - apply is_valid_true. cbn. repeat split; auto. rewrite orb_true_r; auto.
  - apply is_valid_true. cbn. repeat split; auto. rewrite orb_true_r; auto.
  - intros E. unfold is_valid. cbn. rewrite E. reflexivity.
  - intros E. unfold is_valid. cbn. rewrite E. reflexivity.
Qed.

(** ** The validity flag and a null stack pointer *)

(** C10 does not hold of the code: on a freshly created Context,
    [set_instruction_pointer] with the pointer 4096 followed by
    [set_stack_pointer] with the pointer 8 returns true and leaves the validity flag
    set while the stored stack pointer is null: the setter tests its
    argument for null before rounding it down and not after. *)
Theorem low_stack_pointer_sets_flag_on_null_rsp :
  let c0 := Context_ctor zero_registers ContextConfig_default in
  let c1 := snd (set_instruction_pointer 4096 c0) in
  let r2 := set_stack_pointer 8 c1 in
  8 <> nullptr /\
  fst r2 = true /\
  is_valid_ (snd r2) = true /\
  get_stack_pointer (snd r2) = nullptr /\
  ~ flag_sound
      (run [op_set_instruction_pointer 4096; op_set_stack_pointer 8] c0).
Proof.
  cbv zeta. split; [discriminate|].
  split; [reflexivity|]. split; [reflexivity|]. split; [reflexivity|].
  intros Inv. apply Inv; reflexivity.
Qed.

(** The sibling setter looks at the stored stack pointer before it sets the
    flag, so it never sets it over a null stack pointer. *)
Lemma set_instruction_pointer_flag_sound (ip : N) (c : Context) :
  (is_valid_ c = true -> rsp (registers_ c) <> nullptr) ->
  is_valid_ (snd (set_instruction_pointer ip c)) = true ->
  rsp (registers_ (snd (set_instruction_pointer ip c))) <> nullptr.
Proof.
  intros Inv. unfold set_instruction_pointer.
  destruct (ip =? nullptr); [exact Inv|].
  destruct c as [r cf v n]. simpl in *. destruct v; simpl.
  - intros _. apply Inv. reflexivity.
  - intros H. apply negb_true_iff in H. apply N.eqb_neq in H. exact H.
Qed.

(** The stack-pointer setter keeps the flag sound only for pointers that do
    not round down to null. *)
Lemma set_stack_pointer_flag_sound (sp : N) (c : Context) :
  16 <= sp ->
  rsp (registers_ (snd (set_stack_pointer sp c))) <> nullptr.
Proof.
  intros H. rewrite set_stack_pointer_nonnull by (unfold nullptr; lia).
  simpl. apply round_down_nonnull. exact H.
Qed.

(** Every other path keeps the flag sound: by induction on the sequence of
    operations, a freshly created Context on which the stack-pointer setter
    is never called with a pointer strictly between 0 and 16 never has its
    flag set over a null stack pointer. *)
Lemma step_flag_sound (o : Op) (c : Context) :
  benign o -> flag_sound c -> flag_sound (step o c).
Proof.
  unfold flag_sound. destruct o; simpl; intros B Inv.
  - intros _. apply B.
  - exact Inv.
  - destruct (negb (validate_state c) || negb other_valid); [exact Inv|].
    simpl. intros _. apply B.
  - unfold reset. rewrite initialize_registers_eq. simpl. discriminate.
  - destruct B as [-> | B].
    + exact Inv.
    + intros _. apply set_stack_pointer_flag_sound. exact B.
  - apply set_instruction_pointer_flag_sound. exact Inv.
  - discriminate.
  - exact B.
Qed.

Lemma run_flag_sound (ops : list Op) (c : Context) :
  Forall benign ops -> flag_sound c -> flag_sound (run ops c).
Proof.
  unfold run. intros HB. revert c.
  induction HB as [|o ops Ho _ IH]; intros c Inv; simpl.
  - exact Inv.
  - apply IH. apply step_flag_sound; assumption.
Qed.

Lemma fresh_flag_sound (uninit : RegisterState) (config : ContextConfig) :
  flag_sound (Context_ctor uninit config).
Proof.
  unfold flag_sound, Context_ctor. rewrite initialize_registers_eq.
  simpl. discriminate.
Qed.

(** ** Moves *)

Lemma moved_from_state (o : Context) :
  registers_ (moved_from o) = registers_ o /\
  config_ (moved_from o) = config_ o /\
  is_valid (moved_from o) = false /\
  get_switch_count (moved_from o) = 0.
Proof.
  repeat split.
Qed.

Lemma move_between_distinct
  (this other : N) (o : Context) (h : gmap N Context) :
  h !! other = Some o ->
  this <> other ->
  <[other := moved_from o]> (<[this := o]> h) !! this = Some o /\
  <[other := moved_from o]> (<[this := o]> h) !! other = Some (moved_from o) /\
  (forall x : N, x <> this -> x <> other ->
     <[other := moved_from o]> (<[this := o]> h) !! x = h !! x).
Proof.
  intros Ho Hne. repeat split.
  - rewrite lookup_insert_ne by congruence. apply lookup_insert_eq.
  - apply lookup_insert_eq.
  - intros x Hx1 Hx2.
    rewrite lookup_insert_ne by congruence.
    apply lookup_insert_ne. congruence.
Qed.

Lemma move_ctor_distinct
  (this other : N) (o : Context) (h : gmap N Context) :
  h !! other = Some o ->
  this <> other ->
  move_ctor this other h =
    Some (<[other := moved_from o]> (<[this := o]> h)).
Proof.
  intros Ho Hne. unfold move_ctor. rewrite Ho. simpl.
  rewrite lookup_insert_ne by exact Hne. rewrite Ho. simpl.
  destruct o; reflexivity.
Qed.

Lemma move_assign_distinct
  (this other : N) (t o : Context) (h : gmap N Context) :
  h !! this = Some t ->
  h !! other = Some o ->
  this <> other ->
  move_assign this other h =
    Some (<[other := moved_from o]> (<[this := o]> h)).
Proof.
  intros Ht Ho Hne. unfold move_assign. rewrite Ht, Ho. simpl.
  destruct (N.eqb_spec this other) as [E|_]; [contradiction|]. simpl.
  rewrite lookup_insert_ne by exact Hne. rewrite Ho. simpl.
  destruct o; reflexivity.
Qed.

Lemma move_assign_self (this : N) (t : Context) (h : gmap N Context) :
  h !! this = Some t ->
  move_assign this this h = Some h.
Proof.
  intros Ht. unfold move_assign. rewrite Ht. simpl.
  rewrite N.eqb_refl. reflexivity.
Qed.

(** C8, as written, fails for a move assignment of an object to itself:
    the guard [this != &other] skips the body, so the source, which is also
    the destination, is still valid and still counts 3. *)
Lemma self_move_assign_keeps_source :
  let h : gmap N Context := {[ 1 := switched_thrice ]} in
  is_valid switched_thrice = true /\
  exists h' c,
    move_assign 1 1 h = Some h' /\
    h' !! 1 = Some c /\
    is_valid c = true /\
    get_switch_count c = 3.
Proof.
  cbv zeta. split; [reflexivity|].
  exists {[ 1 := switched_thrice ]}, switched_thrice.
  split; [apply (move_assign_self 1 switched_thrice); apply lookup_singleton_eq|].
  split; [apply lookup_singleton_eq|].
  split; reflexivity.
Qed.

(** C8, amended: move construction, and move assignment between two
    distinct objects, leave the destination with the source's register
    block, configuration, validity flag and switch counter, and the source
    with its validity flag clear and its counter 0 (so [is_valid()] is false
    and [get_switch_count()] is 0), touching no other object; a move
    assignment of an object to itself changes nothing. *)
Theorem move_transfers_state
  (this other : N) (t o : Context) (h : gmap N Context) :
  h !! this = Some t ->
  h !! other = Some o ->
  this <> other ->
  (forall fresh : N, fresh <> other ->
   exists h',
     move_ctor fresh other h = Some h' /\
     h' !! fresh = Some o /\
     h' !! other = Some (moved_from o) /\
     (forall x : N, x <> fresh -> x <> other -> h' !! x = h !! x)) /\
  (exists h',
     move_assign this other h = Some h' /\
     h' !! this = Some o /\
     h' !! other = Some (moved_from o) /\
     (forall x : N, x <> this -> x <> other -> h' !! x = h !! x)) /\
  is_valid (moved_from o) = false /\
  get_switch_count (moved_from o) = 0 /\
  move_assign this this h = Some h.
Proof.
  intros Ht Ho Hne. split; [|split; [|split; [|split]]].
  - intros fresh Hf.
    exists (<[other := moved_from o]> (<[fresh := o]> h)).
    split; [apply move_ctor_distinct; assumption|].
    apply move_between_distinct; assumption.
  - exists (<[other := moved_from o]> (<[this := o]> h)).
    split; [apply (move_assign_distinct this other t o); assumption|].
    apply move_between_distinct; assumption.
  - reflexivity.
  - reflexivity.
  - apply (move_assign_self this t). exact Ht.
Qed.

(** ** Save *)

Lemma size_t_incr_small (n : N) : n < SIZE_MAX -> size_t_incr n = n + 1.
Proof.
  unfold SIZE_MAX, size_t_incr. intros H. apply N.mod_small. lia.
Qed.

Lemma captured_valid
  (live dest : RegisterState) (fpu : bool) (config : ContextConfig) (n : N) :
  call_site live ->
  is_valid {| registers_ := capture live dest fpu;
              config_ := config;
              is_valid_ := true;
              switch_count_ := n |} = true.
Proof.
  intros (S1 & S2 & S3). apply is_valid_true. simpl.
  repeat split; auto. intros E. contradiction.
Qed.

Lemma save_first_capture (this : N) (c : Context) (m : Machine) :
  objs m !! this = Some c ->
  save this m =
    Some (Returned true
            (set_obj this
               {| registers_ :=
                    capture (cpu m) (registers_ c) (save_fpu (config_ c));
                  config_ := config_ c;
                  is_valid_ := true;
                  switch_count_ := switch_count_ c |} m)).
Proof.
  intros Hc. unfold save, libco_oop_context_save, save_return.
  rewrite Hc. simpl. rewrite lookup_insert_eq. simpl.
  unfold set_obj. simpl. rewrite insert_insert_eq. reflexivity.
Qed.

(** [step] on [op_save] is what [save] leaves of the object. *)
Lemma save_stores_step (this : N) (c : Context) (m : Machine) :
  objs m !! this = Some c ->
  save this m =
    Some (Returned true (set_obj this (step (op_save (cpu m)) c) m)).
Proof.
  intros Hc. rewrite (save_first_capture this c m Hc). reflexivity.
Qed.

(** C7: on the first-capture path [save()] returns true and afterwards the
    Context is valid with a non-null stack pointer and a non-null
    instruction pointer; on the resumed-return path it adds one to the
    switch counter (as a [size_t]) and returns true. *)
Theorem save_paths (this : N) (c : Context) (m : Machine) :
  objs m !! this = Some c ->
  call_site (cpu m) ->
  (exists m' c',
     save this m = Some (Returned true m') /\
     objs m' !! this = Some c' /\
     is_valid c' = true /\
     get_stack_pointer c' <> nullptr /\
     get_instruction_pointer c' <> nullptr) /\
  save_return this RESUMED m =
    Some (Returned true
            (set_obj this
               {| registers_ := registers_ c;
                  config_ := config_ c;
                  is_valid_ := is_valid_ c;
                  switch_count_ := size_t_incr (switch_count_ c) |} m)) /\
  (switch_count_ c < SIZE_MAX ->
   size_t_incr (switch_count_ c) = switch_count_ c + 1).
Proof.
  intros Hc Hsite. split; [|split].
  - eexists. eexists. split; [apply save_first_capture; exact Hc|].
    split; [apply lookup_insert_eq|].
    split; [apply captured_valid; exact Hsite|].
    destruct Hsite as (S1 & _ & S3). split; assumption.
  - unfold save_return. rewrite Hc. reflexivity.
  - apply size_t_incr_small.
Qed.

(** ** Swap between valid Contexts *)

Lemma swap_return_eq (this : N) (c : Context) (m : Machine) :
  objs m !! this = Some c ->
  swap_return this m =
    Some (Returned true
            (set_obj this
               {| registers_ := registers_ c;
                  config_ := config_ c;
                  is_valid_ := true;
                  switch_count_ := size_t_incr (switch_count_ c) |} m)).
Proof.
  intros Hc. unfold swap_return. rewrite Hc. reflexivity.
Qed.

Lemma swap_valid_eq (this other : N) (a b : Context) (m : Machine) :
  objs m !! this = Some a ->
  objs m !! other = Some b ->
  is_valid a = true ->
  is_valid b = true ->
  swap this other m =
    (m1 ← libco_oop_context_swap this other
            (save_fpu (config_ a) && save_fpu (config_ b)) m;
     Some (Switched
             (Call_context_swap this other
                (save_fpu (config_ a) && save_fpu (config_ b))) m1)).
Proof.
  intros Ha Hb Va Vb. rewrite is_valid_validate_state in Va, Vb.
  unfold swap. rewrite Ha. simpl. rewrite Hb. simpl.
  rewrite Va, Vb. reflexivity.
Qed.

(** The machine after the swap primitive, for two distinct objects. *)
Lemma context_swap_distinct
  (from_regs to_regs : N) (a b : Context) (fpu : bool) (m : Machine) :
  objs m !! from_regs = Some a ->
  objs m !! to_regs = Some b ->
  from_regs <> to_regs ->
  libco_oop_context_swap from_regs to_regs fpu m =
    Some {| cpu := load (registers_ b) (cpu m) fpu;
            objs := <[from_regs :=
                        with_registers (capture (cpu m) (registers_ a) fpu) a]>
                      (objs m) |}.
Proof.
  intros Ha Hb Hne. unfold libco_oop_context_swap. rewrite Ha. simpl.
  rewrite lookup_insert_ne by exact Hne. rewrite Hb. reflexivity.
Qed.

Lemma context_swap_some
  (from_regs to_regs : N) (a b : Context) (fpu : bool) (m : Machine) :
  objs m !! from_regs = Some a ->
  objs m !! to_regs = Some b ->
  exists m1,
    libco_oop_context_swap from_regs to_regs fpu m = Some m1 /\
    objs m1 =
      <[from_regs := with_registers (capture (cpu m) (registers_ a) fpu) a]>
        (objs m).
Proof.
  intros Ha Hb. unfold libco_oop_context_swap. rewrite Ha. simpl.
  destruct (decide (from_regs = to_regs)) as [E|Hne].
  - subst. rewrite lookup_insert_eq. simpl. eexists. split; reflexivity.
  - rewrite lookup_insert_ne by exact Hne. rewrite Hb. simpl.
    eexists. split; reflexivity.
Qed.

(** C3: for valid [a] and [b], [a.swap(b)] calls the swap primitive on the
    two blocks with the conjunction of the two configured [save_fpu] flags;
    when the primitive returns, the rest of [swap] adds one to [a]'s switch
    counter (as a [size_t]), sets [a] valid and returns true.  In
    particular, from count 0, as after a fresh [save()], the count is 1. *)
Theorem swap_valid_switches
  (this other : N) (a b : Context) (m : Machine) :
  objs m !! this = Some a ->
  objs m !! other = Some b ->
  is_valid a = true ->
  is_valid b = true ->
  let fpu := save_fpu (config_ a) && save_fpu (config_ b) in
  (exists m1,
     libco_oop_context_swap this other fpu m = Some m1 /\
     swap this other m =
       Some (Switched (Call_context_swap this other fpu) m1) /\
     objs m1 !! this =
       Some (with_registers (capture (cpu m) (registers_ a) fpu) a) /\
     swap_return this m1 =
       Some (Returned true
               (set_obj this
                  {| registers_ := capture (cpu m) (registers_ a) fpu;
                     config_ := config_ a;
                     is_valid_ := true;
                     switch_count_ := size_t_incr (switch_count_ a) |} m1))) /\
  (forall (m' : Machine) (a' : Context),
     objs m' !! this = Some a' ->
     exists a'',
       swap_return this m' = Some (Returned true (set_obj this a'' m')) /\
       registers_ a'' = registers_ a' /\
       config_ a'' = config_ a' /\
       is_valid_ a'' = true /\
       get_switch_count a'' = size_t_incr (get_switch_count a') /\
       (get_switch_count a' < SIZE_MAX ->
        get_switch_count a'' = get_switch_count a' + 1) /\
       (get_switch_count a' = 0 -> get_switch_count a'' = 1)).
Proof.
  intros Ha Hb Va Vb fpu. split.
  - destruct (context_swap_some this other a b fpu m Ha Hb) as (m1 & E & O).
    assert (Ha1 : objs m1 !! this =
                  Some (with_registers (capture (cpu m) (registers_ a) fpu) a))
      by (rewrite O; apply lookup_insert_eq).
    exists m1. split; [exact E|]. split; [|split].
    + rewrite (swap_valid_eq this other a b m Ha Hb Va Vb).
      fold fpu. rewrite E. reflexivity.
    + exact Ha1.
    + rewrite (swap_return_eq this _ m1 Ha1). reflexivity.
  - intros m' a' Ha'. eexists.
    split; [apply swap_return_eq; exact Ha'|].
    unfold get_switch_count. simpl. repeat split.
    + apply size_t_incr_small.
    + intros E. rewrite E. reflexivity.
Qed.

(** ** Swapping away and back *)

Lemma load_capture_transfer
  (live0 live2 dest : RegisterState) (f0 f2 : bool) :
  transfer_registers (load (capture live0 dest f0) live2 f2) =
  transfer_registers live0.
Proof.
  reflexivity.
Qed.

(** [a.swap(b)], then, with [a] untouched in between, [z.swap(a)] from
    another object [z], then the rest of [a.swap(b)]. *)
Lemma swap_away_and_back
  (a b z : N) (ca cb cz : Context) (m0 m1 m2 : Machine) (call : PrimCall) :
  objs m0 !! a = Some ca ->
  objs m0 !! b = Some cb ->
  is_valid ca = true ->
  is_valid cb = true ->
  call_site (cpu m0) ->
  swap a b m0 = Some (Switched call m1) ->
  z <> a ->
  objs m2 !! z = Some cz ->
  is_valid cz = true ->
  objs m2 !! a = objs m1 !! a ->
  let fpu := save_fpu (config_ ca) && save_fpu (config_ cb) in
  let fpu' := save_fpu (config_ cz) && save_fpu (config_ ca) in
  let ca1 := with_registers (capture (cpu m0) (registers_ ca) fpu) ca in
  let m3 := {| cpu := load (registers_ ca1) (cpu m2) fpu';
               objs := <[z := with_registers
                                (capture (cpu m2) (registers_ cz) fpu') cz]>
                         (objs m2) |} in
  call = Call_context_swap a b fpu /\
  swap z a m2 = Some (Switched (Call_context_swap z a fpu') m3) /\
  swap_return a m3 =
    Some (Returned true
            (set_obj a
               {| registers_ := capture (cpu m0) (registers_ ca) fpu;
                  config_ := config_ ca;
                  is_valid_ := true;
                  switch_count_ := size_t_incr (switch_count_ ca) |} m3)).
Proof.
  intros Ha Hb Va Vb Hsite Hswap Hza Hz Vz Hkeep fpu fpu' ca1 m3.
  destruct (context_swap_some a b ca cb fpu m0 Ha Hb) as (m1' & E & O).
  rewrite (swap_valid_eq a b ca cb m0 Ha Hb Va Vb) in Hswap.
  fold fpu in Hswap. rewrite E in Hswap. simpl in Hswap.
  injection Hswap as <- <-.
  assert (Ha1 : objs m2 !! a = Some ca1).
  { rewrite Hkeep, O. apply lookup_insert_eq. }
  assert (Va1 : is_valid ca1 = true).
  { apply is_valid_true in Va as (Hf & _).
    unfold ca1, with_registers. rewrite Hf.
    apply captured_valid. exact Hsite. }
  split; [reflexivity|]. split.
  - rewrite (swap_valid_eq z a cz ca1 m2 Hz Ha1 Vz Va1).
    rewrite (context_swap_distinct z a cz ca1 _ m2 Hz Ha1 Hza).
    reflexivity.
  - assert (Ha3 : objs m3 !! a = Some ca1).
    { unfold m3. simpl. rewrite lookup_insert_ne by exact Hza. exact Ha1. }
    rewrite (swap_return_eq a ca1 m3 Ha3). reflexivity.
Qed.

(** [step] on [op_swap] is what the swap away and back leaves of [a]. *)
Lemma swap_away_and_back_step (ca cb : Context) (live : RegisterState) :
  is_valid ca = true ->
  step (op_swap live true (save_fpu (config_ cb))) ca =
    {| registers_ :=
         capture live (registers_ ca)
           (save_fpu (config_ ca) && save_fpu (config_ cb));
       config_ := config_ ca;
       is_valid_ := true;
       switch_count_ := size_t_incr (switch_count_ ca) |}.
Proof.
  intros Va. rewrite is_valid_validate_state in Va.
  simpl. rewrite Va. reflexivity.
Qed.

(** C9, as written, fails: the Context at 1 holds a snapshot with stack
    pointer 32; [swap] stores the live registers (stack pointer 48) over
    it, so after the swap to 2 and the swap back the block is not the one
    the Context held before the call. *)
Lemma round_trip_overwrites_block :
  is_valid switched_thrice = true /\
  is_valid ex_b = true /\
  exists call1 m1 call3 m3 m4 a4,
    swap 1 2 ex_machine = Some (Switched call1 m1) /\
    swap 2 1 m1 = Some (Switched call3 m3) /\
    swap_return 1 m3 = Some (Returned true m4) /\
    objs m4 !! 1 = Some a4 /\
    get_stack_pointer switched_thrice = 32 /\
    get_stack_pointer a4 = 48 /\
    registers_ a4 <> registers_ switched_thrice.
Proof.
  split; [reflexivity|]. split; [reflexivity|].
  do 6 eexists.
  split; [vm_compute; reflexivity|].
  split; [vm_compute; reflexivity|].
  split; [vm_compute; reflexivity|].
  split; [vm_compute; reflexivity|].
  split; [reflexivity|]. split; [reflexivity|].
  discriminate.
Qed.

(** C9, amended: for valid [a] and [b], [a.swap(b)] stores the live
    registers into [a]'s block, over what the block held.  When, with [a]
    untouched in between, a swap from another valid Context [z] transfers
    back into [a], the registers loaded are exactly those stored, the rest
    of [a.swap(b)] returns true, and [a] then differs from [a] before the
    call only in its block, which holds exactly the registers stored at the
    call, and in its switch counter, which is one more (as a [size_t]). *)
Theorem swap_round_trip
  (a b z : N) (ca cb cz : Context) (m0 m1 m2 : Machine) (call : PrimCall) :
  objs m0 !! a = Some ca ->
  objs m0 !! b = Some cb ->
  is_valid ca = true ->
  is_valid cb = true ->
  call_site (cpu m0) ->
  swap a b m0 = Some (Switched call m1) ->
  z <> a ->
  objs m2 !! z = Some cz ->
  is_valid cz = true ->
  objs m2 !! a = objs m1 !! a ->
  exists m3 m4 ca4,
    swap z a m2 =
      Some (Switched
              (Call_context_swap z a
                 (save_fpu (config_ cz) && save_fpu (config_ ca))) m3) /\
    transfer_registers (cpu m3) = transfer_registers (cpu m0) /\
    swap_return a m3 = Some (Returned true m4) /\
    objs m4 !! a = Some ca4 /\
    registers_ ca4 =
      capture (cpu m0) (registers_ ca)
        (save_fpu (config_ ca) && save_fpu (config_ cb)) /\
    get_config ca4 = get_config ca /\
    is_valid_ ca4 = is_valid_ ca /\
    is_valid ca4 = true /\
    get_switch_count ca4 = size_t_incr (get_switch_count ca) /\
    (get_switch_count ca < SIZE_MAX ->
     get_switch_count ca4 = get_switch_count ca + 1).
Proof.
  intros Ha Hb Va Vb Hsite Hswap Hza Hz Vz Hkeep.
  destruct (swap_away_and_back a b z ca cb cz m0 m1 m2 call
              Ha Hb Va Vb Hsite Hswap Hza Hz Vz Hkeep) as (_ & S1 & S2).
  eexists. eexists. eexists.
  split; [exact S1|].
  split; [apply load_capture_transfer|].
  split; [exact S2|].
  split; [simpl; apply lookup_insert_eq|].
  split; [reflexivity|]. split; [reflexivity|].
  pose proof Va as Va'. apply is_valid_true in Va' as (Hf & _).
  split; [simpl; symmetry; exact Hf|].
  split; [apply captured_valid; exact Hsite|].
  split; [reflexivity|].
  apply size_t_incr_small.
Qed.

(** ** The scenario of two fresh saves followed by a swap *)

Lemma fresh_saves_then_swap
  (x y : N) (ux uy : RegisterState) (cfgx cfgy : ContextConfig)
  (m0 : Machine) :
  x <> y ->
  objs m0 !! x = Some (Context_ctor ux cfgx) ->
  objs m0 !! y = Some (Context_ctor uy cfgy) ->
  call_site (cpu m0) ->
  exists m1 m2 m3 m4 cx cy cx',
    save x m0 = Some (Returned true m1) /\
    save y m1 = Some (Returned true m2) /\
    objs m2 !! x = Some cx /\ is_valid cx = true /\ get_switch_count cx = 0 /\
    objs m2 !! y = Some cy /\ is_valid cy = true /\ get_switch_count cy = 0 /\
    swap x y m2 =
      Some (Switched
              (Call_context_swap x y (save_fpu cfgx && save_fpu cfgy)) m3) /\
    swap_return x m3 = Some (Returned true m4) /\
    objs m4 !! x = Some cx' /\
    is_valid cx' = true /\
    get_switch_count cx' = 1.
Proof.
  intros Hxy Hx Hy Hsite.
  pose proof (save_first_capture x _ m0 Hx) as S1.
  set (m1 := set_obj x _ m0) in S1.
  assert (Hy1 : objs m1 !! y = Some (Context_ctor uy cfgy)).
  { unfold m1. simpl. rewrite lookup_insert_ne by exact Hxy. exact Hy. }
  pose proof (save_first_capture y _ m1 Hy1) as S2.
  set (m2 := set_obj y _ m1) in S2.
  assert (Hx2 : exists cx, objs m2 !! x = Some cx /\ is_valid cx = true /\
                   get_switch_count cx = 0 /\ config_ cx = cfgx).
  { eexists. split.
    - unfold m2, m1. simpl. rewrite lookup_insert_ne by congruence.
      apply lookup_insert_eq.
    - split; [apply captured_valid; exact Hsite|].
      unfold Context_ctor. rewrite initialize_registers_eq. split; reflexivity. }
  assert (Hy2 : exists cy, objs m2 !! y = Some cy /\ is_valid cy = true /\
                   get_switch_count cy = 0 /\ config_ cy = cfgy).
  { eexists. split.
    - unfold m2. simpl. apply lookup_insert_eq.
    - split; [apply captured_valid; exact Hsite|].
      unfold Context_ctor. rewrite initialize_registers_eq. split; reflexivity. }
  destruct Hx2 as (cx & Hx2 & Vx & Nx & Cx).
  destruct Hy2 as (cy & Hy2 & Vy & Ny & Cy).
  pose proof (context_swap_distinct x y cx cy
                (save_fpu cfgx && save_fpu cfgy) m2 Hx2 Hy2 Hxy) as P.
  set (m3 := mkMachine _ _) in P.
  assert (Hx3 : objs m3 !! x =
                Some (with_registers
                        (capture (cpu m2) (registers_ cx)
                           (save_fpu cfgx && save_fpu cfgy)) cx)).
  { unfold m3. simpl. apply lookup_insert_eq. }
  exists m1, m2, m3. eexists. exists cx, cy. eexists.
  split; [exact S1|]. split; [exact S2|].
  split; [exact Hx2|]. split; [exact Vx|]. split; [exact Nx|].
  split; [exact Hy2|]. split; [exact Vy|]. split; [exact Ny|].
  split.
  { rewrite (swap_valid_eq x y cx cy m2 Hx2 Hy2 Vx Vy).
    rewrite Cx, Cy, P. reflexivity. }
  split; [apply (swap_return_eq x _ m3 Hx3)|].
  split; [simpl; apply lookup_insert_eq|].
  split.
  - apply is_valid_true in Vx as (Hf & _).
    apply captured_valid. exact Hsite.
  - unfold get_switch_count in *. simpl. rewrite Nx. reflexivity.
Qed.

(** * The theorems at concrete machines *)

Lemma swap_invalid_rejected_witness :
  objs ex_rejecting !! 1 = Some ex_fresh /\
  objs ex_rejecting !! 2 = Some ex_b /\
  (is_valid ex_fresh = false \/ is_valid ex_b = false) /\
  swap 1 2 ex_rejecting = Some (Returned false ex_rejecting).
Proof.
  assert (H1 : objs ex_rejecting !! 1 = Some ex_fresh) by reflexivity.
  assert (H2 : objs ex_rejecting !! 2 = Some ex_b) by reflexivity.
  assert (H3 : is_valid ex_fresh = false \/ is_valid ex_b = false)
    by (left; reflexivity).
  do 3 (split; [assumption|]).
  exact (swap_invalid_rejected 1 2 ex_fresh ex_b ex_rejecting H1 H2 H3).
Defined.

Lemma restore_terminates_or_transfers_witness :
  objs ex_rejecting !! 1 = Some ex_fresh /\
  objs ex_rejecting !! 2 = Some ex_b /\
  is_valid ex_fresh = false /\
  is_valid ex_b = true /\
  restore 1 ex_rejecting = Some Terminated /\
  restore 2 ex_rejecting =
    Some (Switched (Call_context_restore 2 false)
            {| cpu := load (registers_ ex_b) ex_live false;
               objs := objs ex_rejecting |}).
Proof.
  assert (H1 : objs ex_rejecting !! 1 = Some ex_fresh) by reflexivity.
  assert (H2 : objs ex_rejecting !! 2 = Some ex_b) by reflexivity.
  assert (V1 : is_valid ex_fresh = false) by reflexivity.
  assert (V2 : is_valid ex_b = true) by reflexivity.
  do 4 (split; [assumption|]). split.
  - exact (proj1 (restore_terminates_or_transfers 1 ex_fresh ex_rejecting H1)
             V1).
  - exact (proj2 (proj2 (restore_terminates_or_transfers 2 ex_b ex_rejecting
                           H2) V2)).
Defined.

Lemma swap_valid_switches_witness :
  objs ex_machine !! 1 = Some switched_thrice /\
  objs ex_machine !! 2 = Some ex_b /\
  is_valid switched_thrice = true /\
  is_valid ex_b = true /\
  (exists m1,
     libco_oop_context_swap 1 2 false ex_machine = Some m1 /\
     swap 1 2 ex_machine = Some (Switched (Call_context_swap 1 2 false) m1) /\
     objs m1 !! 1 =
       Some (with_registers
               (capture ex_live (registers_ switched_thrice) false)
               switched_thrice) /\
     swap_return 1 m1 =
       Some (Returned true
               (set_obj 1
                  {| registers_ :=
                       capture ex_live (registers_ switched_thrice) false;
                     config_ := ContextConfig_default;
                     is_valid_ := true;
                     switch_count_ := size_t_incr 3 |} m1))).
Proof.
  assert (H1 : objs ex_machine !! 1 = Some switched_thrice) by reflexivity.
  assert (H2 : objs ex_machine !! 2 = Some ex_b) by reflexivity.
  assert (V1 : is_valid switched_thrice = true) by reflexivity.
  assert (V2 : is_valid ex_b = true) by reflexivity.
  do 4 (split; [assumption|]).
  exact (proj1 (swap_valid_switches 1 2 switched_thrice ex_b ex_machine
                  H1 H2 V1 V2)).
Defined.

Lemma set_stack_pointer_aligns_witness :
  40 <> nullptr /\
  fst (set_stack_pointer 40 ex_fresh) = true /\
  get_stack_pointer (snd (set_stack_pointer 40 ex_fresh)) = 32.
Proof.
  assert (H : 40 <> nullptr) by (unfold nullptr; lia).
  split; [exact H|].
  destruct (proj2 (set_stack_pointer_aligns 40 ex_fresh) H)
    as (R & _ & _ & _ & E).
  split; [exact R|].
  apply E. vm_compute. discriminate.
Defined.

Lemma seeding_makes_valid_witness :
  INVALID ex_fresh /\ 16 <= 40 /\ 4096 <> nullptr /\
  is_valid
    (snd (set_instruction_pointer 4096 (snd (set_stack_pointer 40 ex_fresh))))
    = true /\
  is_valid
    (snd (set_stack_pointer 40 (snd (set_instruction_pointer 4096 ex_fresh))))
    = true /\
  is_valid (snd (set_stack_pointer 40 ex_fresh)) = false /\
  is_valid (snd (set_instruction_pointer 4096 ex_fresh)) = false.
Proof.
  assert (H1 : INVALID ex_fresh) by (split; reflexivity).
  assert (H2 : 16 <= 40) by lia.
  assert (H3 : 4096 <> nullptr) by (unfold nullptr; lia).
  destruct (seeding_makes_valid 40 4096 ex_fresh H1 H2 H3)
    as ((_ & _ & A & _) & (_ & _ & B & _) & C & D).
  do 3 (split; [assumption|]).
  split; [exact A|]. split; [exact B|]. split.
  - apply C. reflexivity.
  - apply D. reflexivity.
Defined.

Lemma save_paths_witness :
  objs ex_rejecting !! 1 = Some ex_fresh /\
  call_site (cpu ex_rejecting) /\
  (exists m' c',
     save 1 ex_rejecting = Some (Returned true m') /\
     objs m' !! 1 = Some c' /\
     is_valid c' = true /\
     get_stack_pointer c' <> nullptr /\
     get_instruction_pointer c' <> nullptr).
Proof.
  assert (H1 : objs ex_rejecting !! 1 = Some ex_fresh) by reflexivity.
  assert (H2 : call_site (cpu ex_rejecting)) by site.
  split; [exact H1|]. split; [exact H2|].
  exact (proj1 (save_paths 1 ex_fresh ex_rejecting H1 H2)).
Defined.

Lemma move_transfers_state_witness :
  objs ex_machine !! 1 = Some switched_thrice /\
  objs ex_machine !! 2 = Some ex_b /\
  1 <> 2 /\
  (exists h',
     move_assign 1 2 (objs ex_machine) = Some h' /\
     h' !! 1 = Some ex_b /\
     h' !! 2 = Some (moved_from ex_b) /\
     (forall x : N, x <> 1 -> x <> 2 -> h' !! x = objs ex_machine !! x)).
Proof.
  assert (H1 : objs ex_machine !! 1 = Some switched_thrice) by reflexivity.
  assert (H2 : objs ex_machine !! 2 = Some ex_b) by reflexivity.
  assert (H3 : 1 <> 2) by lia.
  split; [exact H1|]. split; [exact H2|]. split; [exact H3|].
  exact (proj1 (proj2 (move_transfers_state 1 2 switched_thrice ex_b
                         (objs ex_machine) H1 H2 H3))).
Defined.

Lemma swap_round_trip_witness :
  objs ex_machine !! 1 = Some switched_thrice /\
  objs ex_machine !! 2 = Some ex_b /\
  is_valid switched_thrice = true /\
  is_valid ex_b = true /\
  call_site (cpu ex_machine) /\
  swap 1 2 ex_machine =
    Some (Switched (Call_context_swap 1 2 false) ex_switched) /\
  2 <> 1 /\
  objs ex_switched !! 2 = Some ex_b /\
  objs ex_switched !! 1 = objs ex_switched !! 1 /\
  exists m3 m4 ca4,
    swap 2 1 ex_switched =
      Some (Switched
              (Call_context_swap 2 1
                 (save_fpu (config_ ex_b) &&
                  save_fpu (config_ switched_thrice))) m3) /\
    transfer_registers (cpu m3) = transfer_registers (cpu ex_machine) /\
    swap_return 1 m3 = Some (Returned true m4) /\
    objs m4 !! 1 = Some ca4 /\
    registers_ ca4 =
      capture (cpu ex_machine) (registers_ switched_thrice)
        (save_fpu (config_ switched_thrice) && save_fpu (config_ ex_b)) /\
    get_config ca4 = get_config switched_thrice /\
    is_valid_ ca4 = is_valid_ switched_thrice /\
    is_valid ca4 = true /\
    get_switch_count ca4 = size_t_incr (get_switch_count switched_thrice) /\
    (get_switch_count switched_thrice < SIZE_MAX ->
     get_switch_count ca4 = get_switch_count switched_thrice + 1).
Proof.
  assert (H1 : objs ex_machine !! 1 = Some switched_thrice) by reflexivity.
  assert (H2 : objs ex_machine !! 2 = Some ex_b) by reflexivity.
  assert (V1 : is_valid switched_thrice = true) by reflexivity.
  assert (V2 : is_valid ex_b = true) by reflexivity.
  assert (H3 : call_site (cpu ex_machine)) by site.
  assert (H4 : swap 1 2 ex_machine =
               Some (Switched (Call_context_swap 1 2 false) ex_switched))
    by (vm_compute; reflexivity).
  assert (H5 : 2 <> 1) by lia.
  assert (H6 : objs ex_switched !! 2 = Some ex_b) by reflexivity.
  assert (H7 : objs ex_switched !! 1 = objs ex_switched !! 1) by reflexivity.
  do 9 (split; [assumption|]).
  exact (swap_round_trip 1 2 2 switched_thrice ex_b ex_b
           ex_machine ex_switched ex_switched (Call_context_swap 1 2 false)
           H1 H2 V1 V2 H3 H4 H5 H6 V2 H7).
Defined.

(** * Further properties of the Context *)

(** ** Validity and the pointer setters *)

(** X1: [is_valid()] is [validate_state()], the flag test in front of it
    adding nothing; it holds exactly when the flag is set, the stored stack
    pointer is a non-null multiple of 16, and the instruction pointer is
    non-null unless the switch count is still 0. *)
Theorem is_valid_characterised (c : Context) :
  is_valid c = validate_state c /\
  (is_valid c = true <->
   is_valid_ c = true /\
   get_stack_pointer c <> nullptr /\
   get_stack_pointer c mod 16 = 0 /\
   (get_instruction_pointer c = nullptr -> get_switch_count c = 0)).
Proof.
  split; [apply is_valid_validate_state|apply is_valid_true].
Qed.

(** X2: [set_instruction_pointer] rejects null and leaves the Context as it
    was; a non-null pointer is stored as given, without any alignment, and
    nothing else changes except that a clear flag becomes set when the
    stored stack pointer is non-null. *)
Theorem set_instruction_pointer_stores (ip : N) (c : Context) :
  set_instruction_pointer nullptr c = (false, c) /\
  (ip <> nullptr ->
   fst (set_instruction_pointer ip c) = true /\
   get_instruction_pointer (snd (set_instruction_pointer ip c)) = ip /\
   registers_ (snd (set_instruction_pointer ip c)) =
     with_rip ip (registers_ c) /\
   get_stack_pointer (snd (set_instruction_pointer ip c)) =
     get_stack_pointer c /\
   get_config (snd (set_instruction_pointer ip c)) = get_config c /\
   get_switch_count (snd (set_instruction_pointer ip c)) =
     get_switch_count c /\
   is_valid_ (snd (set_instruction_pointer ip c)) =
     is_valid_ c || negb (get_stack_pointer c =? nullptr)).
Proof.
  split; [reflexivity|].
  intros Hip. rewrite (set_instruction_pointer_nonnull ip c Hip).
  repeat split.
Qed.

(** X3: on a valid Context both setters keep it valid, for a stack pointer
    of at least 16 and a non-null instruction pointer, and neither changes
    the switch count. *)
Theorem setters_keep_valid (sp ip : N) (c : Context) :
  is_valid c = true ->
  16 <= sp ->
  ip <> nullptr ->
  is_valid (snd (set_stack_pointer sp c)) = true /\
  is_valid (snd (set_instruction_pointer ip c)) = true /\
  get_switch_count (snd (set_stack_pointer sp c)) = get_switch_count c /\
  get_switch_count (snd (set_instruction_pointer ip c)) = get_switch_count c.
Proof.
  intros Hv Hsp Hip.
  apply is_valid_true in Hv as (Hf & R1 & R2 & R3).
  rewrite (set_stack_pointer_nonnull sp c) by (unfold nullptr; lia).
  rewrite (set_instruction_pointer_nonnull ip c Hip).
  split; [|split; [|split; reflexivity]].
  - apply is_valid_true. simpl. rewrite Hf. repeat split; auto.
    + apply round_down_nonnull. exact Hsp.
    + apply round_down_aligned.
  - apply is_valid_true. simpl. rewrite Hf. repeat split; auto.
    intros E. contradiction.
Qed.

(** X4: for a non-null stack pointer below 16, [set_stack_pointer] returns
    true, stores null, and leaves the Context not valid, whatever it was
    before. *)
Theorem set_stack_pointer_below_16 (p : N) (c : Context) :
  0 < p ->
  p < 16 ->
  fst (set_stack_pointer p c) = true /\
  get_stack_pointer (snd (set_stack_pointer p c)) = nullptr /\
  is_valid (snd (set_stack_pointer p c)) = false.
Proof.
  intros Hp Hlt.
  rewrite (set_stack_pointer_nonnull p c) by (unfold nullptr; lia).
  rewrite (round_down_low p Hlt).
  split; [reflexivity|]. split; [reflexivity|].
  rewrite is_valid_validate_state. unfold validate_state. simpl.
  destruct (is_valid_ c || negb (rip (registers_ c) =? nullptr)); reflexivity.
Qed.

(** X5: from any Context, a stack pointer of at least 16 and a non-null
    instruction pointer may be set in either order: the resulting Contexts
    are equal, and valid. *)
Theorem setters_commute (sp ip : N) (c : Context) :
  16 <= sp ->
  ip <> nullptr ->
  snd (set_instruction_pointer ip (snd (set_stack_pointer sp c))) =
  snd (set_stack_pointer sp (snd (set_instruction_pointer ip c))) /\
  is_valid (snd (set_instruction_pointer ip (snd (set_stack_pointer sp c))))
  = true.
Proof.
  intros Hsp Hip.
  assert (Hsp0 : sp <> nullptr) by (unfold nullptr; lia).
  pose proof (round_down_nonnull sp Hsp) as NZ.
  rewrite !(set_stack_pointer_nonnull sp _ Hsp0).
  rewrite !(set_instruction_pointer_nonnull ip _ Hip).
  cbn [fst snd registers_ config_ is_valid_ switch_count_ rsp rip
       with_rsp with_rip].
  assert (Eip : (ip =? nullptr) = false) by (apply N.eqb_neq; exact Hip).
  assert (Esp : (sp - sp mod 16 =? nullptr) = false)
    by (apply N.eqb_neq; exact NZ).
  rewrite Eip, Esp. cbn [negb]. rewrite !orb_true_r.
  split; [reflexivity|].
  apply is_valid_true. cbn. repeat split; auto.
  - apply round_down_aligned.
  - intros E. contradiction.
Qed.

(** X6: both setters are idempotent, and for a pointer of at least 16 the
    stack pointer read back is accepted unchanged. *)
Theorem setters_idempotent (p : N) (c : Context) :
  set_stack_pointer p (snd (set_stack_pointer p c)) = set_stack_pointer p c /\
  set_instruction_pointer p (snd (set_instruction_pointer p c)) =
    set_instruction_pointer p c /\
  (16 <= p ->
   set_stack_pointer
     (get_stack_pointer (snd (set_stack_pointer p c)))
     (snd (set_stack_pointer p c)) =
   (true, snd (set_stack_pointer p c))).
Proof.
  destruct (N.eq_dec p nullptr) as [->|Hp].
  - split; [reflexivity|]. split; [reflexivity|].
    unfold nullptr. intros H. lia.
  - rewrite !(set_stack_pointer_nonnull p _ Hp).
    rewrite !(set_instruction_pointer_nonnull p _ Hp).
    cbn [fst snd registers_ config_ is_valid_ switch_count_ rsp rip
         with_rsp with_rip].
    split; [|split].
    + destruct (is_valid_ c), (rip (registers_ c) =? nullptr); reflexivity.
    + destruct (is_valid_ c), (rsp (registers_ c) =? nullptr); reflexivity.
    + intros H16. pose proof (round_down_nonnull p H16) as NZ.
      unfold get_stack_pointer. cbn [registers_ rsp].
      rewrite (set_stack_pointer_nonnull _ _ NZ).
      cbn [registers_ config_ is_valid_ switch_count_ rsp rip with_rsp].
      rewrite round_down_aligned, N.sub_0_r.
      destruct (is_valid_ c), (rip (registers_ c) =? nullptr); reflexivity.
Qed.

(** ** Sequences of operations on one object *)

Lemma step_keeps_config (o : Op) (c : Context) :
  in_place o -> config_ (step o c) = config_ c.
Proof.
  destruct o; simpl; intros Ho; try reflexivity.
  - destruct (negb (validate_state c) || negb other_valid); reflexivity.
  - unfold reset. rewrite initialize_registers_eq. reflexivity.
  - unfold set_stack_pointer.
    destruct (sp =? nullptr); [reflexivity|]. simpl.
    destruct (is_valid_ c); reflexivity.
  - unfold set_instruction_pointer.
    destruct (ip =? nullptr); [reflexivity|]. simpl.
    destruct (is_valid_ c); reflexivity.
  - contradiction.
Qed.

Lemma reset_by_config (c c' : Context) :
  config_ c = config_ c' -> reset c = reset c'.
Proof.
  intros E. unfold reset. rewrite !initialize_registers_eq.
  unfold with_registers, with_switch_count, with_is_valid. simpl.
  rewrite E. reflexivity.
Qed.

(** X7: no operation on an object changes its configuration, whatever the
    arguments, so after any sequence of them [get_config()] is what the
    constructor was given and [reset()] gives back the freshly constructed
    state. *)
Theorem run_keeps_config
  (ops : list Op) (uninit : RegisterState) (config : ContextConfig) :
  Forall in_place ops ->
  get_config (run ops (Context_ctor uninit config)) = config /\
  reset (run ops (Context_ctor uninit config)) = Context_ctor uninit config.
Proof.
  intros Hops.
  assert (K : forall c, config_ (run ops c) = config_ c).
  { unfold run. induction Hops as [|o ops Ho _ IH]; intros c; simpl.
    - reflexivity.
    - rewrite IH. apply step_keeps_config. exact Ho. }
  assert (C0 : config_ (Context_ctor uninit config) = config).
  { unfold Context_ctor. rewrite initialize_registers_eq. reflexivity. }
  split.
  - unfold get_config. rewrite K. exact C0.
  - rewrite (reset_by_config _ (Context_ctor uninit config) (K _)).
    destruct (fresh_and_reset_state uninit config (Context_ctor uninit config))
      as (E & _).
    rewrite E, C0. reflexivity.
Qed.




Lemma size_t_incr_iter (n : nat) (k : N) :
  k <= SIZE_MAX ->
  Nat.iter n size_t_incr k = (k + N.of_nat n) mod 2 ^ 64.
Proof.
  intros Hk. induction n as [|n IH].
  - simpl. rewrite N.add_0_r. symmetry. apply N.mod_small.
    unfold SIZE_MAX in Hk. lia.
  - rewrite Nat.iter_succ, IH. unfold size_t_incr.
    rewrite N.Div0.add_mod_idemp_l.
    f_equal. lia.
Qed.

Lemma swaps_iter (n : nat) (live : RegisterState) (f : bool) (c : Context) :
  is_valid c = true ->
  call_site live ->
  let c' := run (repeat (op_swap live true f) n) c in
  is_valid c' = true /\
  config_ c' = config_ c /\
  switch_count_ c' = Nat.iter n size_t_incr (switch_count_ c).
Proof.
  intros Hv Hsite. revert c Hv.
  induction n as [|n IH]; intros c Hv; cbv zeta.
  - simpl. auto.
  - change (run (repeat (op_swap live true f) (S n)) c)
      with (run (repeat (op_swap live true f) n)
              (step (op_swap live true f) c)).
    pose proof Hv as Hv'. rewrite is_valid_validate_state in Hv'.
    assert (E : step (op_swap live true f) c =
                {| registers_ :=
                     capture live (registers_ c) (save_fpu (config_ c) && f);
                   config_ := config_ c;
                   is_valid_ := true;
                   switch_count_ := size_t_incr (switch_count_ c) |}).
    { simpl. rewrite Hv'. reflexivity. }
    rewrite E.
    destruct (IH _ (captured_valid live (registers_ c)
                      (save_fpu (config_ c) && f) (config_ c)
                      (size_t_incr (switch_count_ c)) Hsite))
      as (V & C & K).
    split; [exact V|]. split; [exact C|].
    rewrite K. simpl. rewrite <- Nat.iter_succ_r. reflexivity.
Qed.

(** X9: a valid Context stays valid through any number of swaps away and
    back made at call sites, and after [n] of them its switch count is the
    old count plus [n] modulo 2^64: the counter wraps, it does not
    saturate. *)
Theorem swaps_count
  (n : nat) (live : RegisterState) (other_save_fpu : bool) (c : Context) :
  is_valid c = true ->
  call_site live ->
  get_switch_count c <= SIZE_MAX ->
  is_valid (run (repeat (op_swap live true other_save_fpu) n) c) = true /\
  get_config (run (repeat (op_swap live true other_save_fpu) n) c) =
    get_config c /\
  get_switch_count (run (repeat (op_swap live true other_save_fpu) n) c) =
    (get_switch_count c + N.of_nat n) mod 2 ^ 64.
Proof.
  intros Hv Hsite Hk.
  destruct (swaps_iter n live other_save_fpu c Hv Hsite) as (V & C & K).
  split; [exact V|]. split; [exact C|].
  unfold get_switch_count in *. rewrite K.
  apply size_t_incr_iter. exact Hk.
Qed.

(** ** Transfers *)

Lemma restore_terminates_or_transfers_aux
  (this : N) (c : Context) (m : Machine) :
  objs m !! this = Some c ->
  is_valid c = true ->
  restore this m =
    Some (Switched (Call_context_restore this (save_fpu (config_ c)))
            {| cpu := load (registers_ c) (cpu m) (save_fpu (config_ c));
               objs := objs m |}).
Proof.
  intros Hc Hv. pose proof Hv as Hv'.
  rewrite is_valid_validate_state in Hv'.
  apply is_valid_true in Hv as (Hf & _).
  unfold restore, libco_oop_context_restore. rewrite Hc. simpl.
  rewrite Hf, Hv'. reflexivity.
Qed.

(** X10: a Context that holds no snapshot (freshly constructed, reset, or
    moved from) cannot take part in a transfer: [restore()] on it ends in
    [std::terminate()], and [swap] returns false with the machine unchanged
    whether it is the source or the target. *)
Theorem no_snapshot_no_transfer
  (this : N) (c c0 : Context) (uninit : RegisterState)
  (config : ContextConfig) (m : Machine) :
  objs m !! this = Some c ->
  c = Context_ctor uninit config \/ c = reset c0 \/ c = moved_from c0 ->
  restore this m = Some Terminated /\
  (forall (other : N) (b : Context),
     objs m !! other = Some b ->
     swap this other m = Some (Returned false m) /\
     swap other this m = Some (Returned false m)).
Proof.
  intros Hc Hkind.
  assert (F : is_valid_ c = false).
  { destruct Hkind as [-> | [-> | ->]].
    - unfold Context_ctor. rewrite initialize_registers_eq. reflexivity.
    - unfold reset. rewrite initialize_registers_eq. reflexivity.
    - reflexivity. }
  assert (V : validate_state c = false).
  { unfold validate_state. rewrite F. reflexivity. }
  split.
  - unfold restore. rewrite Hc. simpl. rewrite F. reflexivity.
  - intros other b Hb. unfold swap. rewrite Hc, Hb. simpl.
    rewrite V. simpl. rewrite orb_true_r.
    split; reflexivity.
Qed.

(** X11: a Context saved at a call site can be restored: [restore()] does
    not terminate, it loads exactly the callee-saved registers, stack
    pointer and return address that were live at the [save()], leaves every
    object as it was, and the resumed [save()] then returns true with the
    switch count incremented.  The FPU control words are reloaded only with
    [save_fpu]. *)
Theorem save_then_restore
  (this : N) (c : Context) (m m2 : Machine) :
  objs m !! this = Some c ->
  call_site (cpu m) ->
  objs m2 !! this = Some (step (op_save (cpu m)) c) ->
  let fpu := save_fpu (config_ c) in
  let m3 := {| cpu := load (registers_ (step (op_save (cpu m)) c))
                        (cpu m2) fpu;
               objs := objs m2 |} in
  save this m =
    Some (Returned true (set_obj this (step (op_save (cpu m)) c) m)) /\
  restore this m2 = Some (Switched (Call_context_restore this fpu) m3) /\
  transfer_registers (cpu m3) = transfer_registers (cpu m) /\
  (fpucw (cpu m3), mxcsr (cpu m3)) =
    (if fpu then (fpucw (cpu m), mxcsr (cpu m))
     else (fpucw (cpu m2), mxcsr (cpu m2))) /\
  exists c4,
    save_return this RESUMED m3 = Some (Returned true (set_obj this c4 m3)) /\
    is_valid c4 = true /\
    get_switch_count c4 = size_t_incr (get_switch_count c).
Proof.
  intros Hc Hsite H2 fpu m3.
  assert (V : is_valid (step (op_save (cpu m)) c) = true)
    by (apply captured_valid; exact Hsite).
  split; [apply save_stores_step; exact Hc|].
  split.
  { exact (restore_terminates_or_transfers_aux this _ m2 H2 V). }
  split; [reflexivity|].
  split;
    [subst fpu m3; simpl; destruct (save_fpu (config_ c)); reflexivity|].
  eexists. split.
  - unfold save_return. simpl. rewrite H2. simpl. reflexivity.
  - split; [apply captured_valid; exact Hsite|reflexivity].
Qed.

(** X12: [save()] returns true whatever the primitive captured, keeps the
    switch count and the configuration, and sets the flag; the Context is
    then valid exactly when the captured stack pointer is a non-null
    multiple of 16 and the captured return address is non-null or the count
    is 0. *)
Theorem save_valid_iff (this : N) (c : Context) (m : Machine) :
  objs m !! this = Some c ->
  exists c',
    save this m = Some (Returned true (set_obj this c' m)) /\
    is_valid_ c' = true /\
    get_switch_count c' = get_switch_count c /\
    get_config c' = get_config c /\
    get_stack_pointer c' = rsp (cpu m) /\
    get_instruction_pointer c' = rip (cpu m) /\
    (is_valid c' = true <->
     rsp (cpu m) <> nullptr /\
     rsp (cpu m) mod 16 = 0 /\
     (rip (cpu m) = nullptr -> get_switch_count c = 0)).
Proof.
  intros Hc. eexists.
  split; [apply save_first_capture; exact Hc|].
  do 5 (split; [reflexivity|]).
  rewrite is_valid_true. simpl. unfold get_switch_count, nullptr.
  tauto.
Qed.

Lemma load_capture_same (live dest : RegisterState) (f : bool) :
  load (capture live dest f) live f = live.
Proof.
  destruct live, f; reflexivity.
Qed.

(** X13: a valid Context swapped with itself: the primitive is called on
    the one block with the Context's own [save_fpu], the block takes the
    live registers, and the register file is as before the call, so control
    is back at once. *)
Theorem swap_with_itself (this : N) (a : Context) (m : Machine) :
  objs m !! this = Some a ->
  is_valid a = true ->
  swap this this m =
    Some (Switched (Call_context_swap this this (save_fpu (config_ a)))
            (set_obj this
               (with_registers
                  (capture (cpu m) (registers_ a) (save_fpu (config_ a))) a)
               m)).
Proof.
  intros Ha Va.
  rewrite (swap_valid_eq this this a a m Ha Ha Va Va).
  rewrite andb_diag.
  unfold libco_oop_context_swap. rewrite Ha. simpl.
  rewrite lookup_insert_eq. simpl.
  rewrite load_capture_same. reflexivity.
Qed.


(** ** Moves *)

(** X15: moving a Context to another object and back restores it exactly,
    flag and switch count included; the other object is left moved-from,
    holding the first one's register block and configuration, its own
    state lost. *)
Theorem move_there_and_back
  (a b : N) (ca cb : Context) (h : gmap N Context) :
  h !! a = Some ca ->
  h !! b = Some cb ->
  a <> b ->
  exists h1 h2,
    move_assign b a h = Some h1 /\
    move_assign a b h1 = Some h2 /\
    h2 !! a = Some ca /\
    h2 !! b = Some (moved_from ca) /\
    (forall x : N, x <> a -> x <> b -> h2 !! x = h !! x).
Proof.
  intros Ha Hb Hne.
  assert (Hne' : b <> a) by congruence.
  destruct (move_between_distinct b a ca h Ha Hne') as (B1 & A1 & O1).
  pose proof (move_assign_distinct b a cb ca h Hb Ha Hne') as E1.
  destruct (move_between_distinct a b ca _ B1 Hne) as (A2 & B2 & O2).
  pose proof (move_assign_distinct a b _ ca _ A1 B1 Hne) as E2.
  eexists. eexists.
  split; [exact E1|]. split; [exact E2|].
  split; [exact A2|].
  split; [exact B2|].
  intros x Hxa Hxb. rewrite (O2 x Hxa Hxb). apply O1; assumption.
Qed.

(** X16: a moved-from Context is not valid but keeps its register block:
    the accessors still return the old stack and instruction pointers, and
    a single [set_instruction_pointer] with a non-null pointer makes it
    valid again with switch count 0, as does a single [set_stack_pointer]
    with a pointer of at least 16 when the old instruction pointer is
    non-null. *)
Theorem moved_from_revives (sp ip : N) (o : Context) :
  is_valid o = true ->
  16 <= sp ->
  ip <> nullptr ->
  is_valid (moved_from o) = false /\
  get_stack_pointer (moved_from o) = get_stack_pointer o /\
  get_instruction_pointer (moved_from o) = get_instruction_pointer o /\
  is_valid (snd (set_instruction_pointer ip (moved_from o))) = true /\
  get_switch_count (snd (set_instruction_pointer ip (moved_from o))) = 0 /\
  (get_instruction_pointer o <> nullptr ->
   is_valid (snd (set_stack_pointer sp (moved_from o))) = true).
Proof.
  intros Hv Hsp Hip.
  apply is_valid_true in Hv as (Hf & R1 & R2 & R3).
  do 3 (split; [reflexivity|]).
  rewrite (set_instruction_pointer_nonnull ip _ Hip).
  rewrite (set_stack_pointer_nonnull sp _) by (unfold nullptr; lia).
  cbn [fst snd]. split; [|split; [reflexivity|]].
  - apply is_valid_true. simpl.
    assert (E1 : (rsp (registers_ o) =? nullptr) = false)
      by (apply N.eqb_neq; exact R1).
    rewrite E1. repeat split; auto.
  - unfold get_instruction_pointer. intros Hrip.
    apply is_valid_true. simpl.
    assert (E2 : (rip (registers_ o) =? nullptr) = false)
      by (apply N.eqb_neq; exact Hrip).
    rewrite E2. split; [reflexivity|].
    split; [apply round_down_nonnull; exact Hsp|].
    split; [apply round_down_aligned|].
    intros _. reflexivity.
Qed.

(** * The test helpers *)

Lemma compare_snapshots_after_update
  (s1 s2 : RegisterChecker.RegisterSnapshot) :
  RegisterChecker.compare_snapshots
    (RegisterChecker.update_checksum s1)
    (RegisterChecker.update_checksum s2) = true.
Proof.
  unfold RegisterChecker.compare_snapshots, RegisterChecker.verify_checksum.
  simpl. rewrite !N.eqb_refl. reflexivity.
Qed.

(** X17: a snapshot whose checksum has been updated verifies, and
    [compare_snapshots] holds of any two such snapshots: it checks each
    against its own checksum and never one against the other. *)
Theorem compare_snapshots_never_compares
  (s1 s2 : RegisterChecker.RegisterSnapshot) :
  RegisterChecker.verify_checksum (RegisterChecker.update_checksum s1) = true /\
  RegisterChecker.compare_snapshots
    (RegisterChecker.update_checksum s1)
    (RegisterChecker.update_checksum s2) = true.
Proof.
  assert (V : forall s,
             RegisterChecker.verify_checksum
               (RegisterChecker.update_checksum s) = true).
  { intros s. unfold RegisterChecker.verify_checksum. simpl.
    apply N.eqb_refl. }
  split; [apply V|].
  unfold RegisterChecker.compare_snapshots. rewrite !V. reflexivity.
Qed.

Lemma land_low_32 (x : N) : N.land x 0xFFFFFFFF = x mod 2 ^ 32.
Proof.
  change 0xFFFFFFFF with (N.ones 32). apply N.land_ones.
Qed.

(** X18: the sixteen test values of [capture_current_state] cancel in the
    checksum, which is just the low 32 bits of the stack pointer; two
    captures taken at different stack pointers still compare as equal
    states. *)
Theorem capture_checksum_is_stack_pointer (sp sp' : N) :
  RegisterChecker.checksum (RegisterChecker.capture_current_state sp) =
    sp mod 2 ^ 32 /\
  RegisterChecker.compare_snapshots
    (RegisterChecker.capture_current_state sp)
    (RegisterChecker.capture_current_state sp') = true.
Proof.
  split.
  - unfold RegisterChecker.capture_current_state,
      RegisterChecker.update_checksum, RegisterChecker.calculate_checksum.
    cbn [RegisterChecker.checksum RegisterChecker.values
         RegisterChecker.stack_ptr RegisterChecker.instruction_ptr].
    match goal with
    | |- context [fold_left ?f ?l 0] =>
        replace (fold_left f l 0) with 0 by (vm_compute; reflexivity)
    end.
    unfold RegisterChecker.u32, nullptr.
    rewrite N.lxor_0_l, land_low_32, N.Div0.mod_mod.
    change (N.land 0 0xFFFFFFFF) with 0.
    rewrite N.lxor_0_r. apply N.Div0.mod_mod.
  - apply compare_snapshots_after_update.
Qed.

(** X19: [get_current_memory_usage] is a constant, so whatever calls a test
    makes on its tracker, the tracker stays as constructed: the leak amount
    is always 0 and the fixture's warning for a leak above 1024 bytes is
    never printed. *)
Theorem tracker_never_reports_leak (calls : list MemoryTracker.Call) :
  fold_left MemoryTracker.call calls MemoryTracker.MemoryTracker_ctor =
    MemoryTracker.MemoryTracker_ctor /\
  MemoryTracker.get_leak_amount
    (fold_left MemoryTracker.call calls MemoryTracker.MemoryTracker_ctor) = 0 /\
  (1024 <? MemoryTracker.get_leak_amount
             (fold_left MemoryTracker.call calls
                MemoryTracker.MemoryTracker_ctor)) = false.
Proof.
  assert (E : fold_left MemoryTracker.call calls MemoryTracker.MemoryTracker_ctor
              = MemoryTracker.MemoryTracker_ctor).
  { induction calls as [|k calls IH]; [reflexivity|].
    simpl. destruct k; exact IH. }
  rewrite E. repeat split.
Qed.

(** * The further properties at concrete inputs *)

Lemma set_instruction_pointer_stores_witness :
  4097 <> nullptr /\
  fst (set_instruction_pointer 4097 ex_fresh) = true /\
  get_instruction_pointer (snd (set_instruction_pointer 4097 ex_fresh)) = 4097.
Proof.
  assert (H : 4097 <> nullptr) by (unfold nullptr; lia).
  split; [exact H|].
  destruct (proj2 (set_instruction_pointer_stores 4097 ex_fresh) H)
    as (R & E & _).
  split; [exact R|exact E].
Defined.

Lemma setters_keep_valid_witness :
  is_valid switched_thrice = true /\ 16 <= 100 /\ 4097 <> nullptr /\
  is_valid (snd (set_stack_pointer 100 switched_thrice)) = true /\
  is_valid (snd (set_instruction_pointer 4097 switched_thrice)) = true.
Proof.
  assert (H1 : is_valid switched_thrice = true) by reflexivity.
  assert (H2 : 16 <= 100) by lia.
  assert (H3 : 4097 <> nullptr) by (unfold nullptr; lia).
  do 3 (split; [assumption|]).
  destruct (setters_keep_valid 100 4097 switched_thrice H1 H2 H3)
    as (A & B & _).
  split; [exact A|exact B].
Defined.

Lemma set_stack_pointer_below_16_witness :
  0 < 8 /\ 8 < 16 /\
  fst (set_stack_pointer 8 switched_thrice) = true /\
  get_stack_pointer (snd (set_stack_pointer 8 switched_thrice)) = nullptr /\
  is_valid (snd (set_stack_pointer 8 switched_thrice)) = false.
Proof.
  assert (H1 : 0 < 8) by lia.
  assert (H2 : 8 < 16) by lia.
  do 2 (split; [assumption|]).
  exact (set_stack_pointer_below_16 8 switched_thrice H1 H2).
Defined.

Lemma setters_commute_witness :
  16 <= 100 /\ 4097 <> nullptr /\
  snd (set_instruction_pointer 4097 (snd (set_stack_pointer 100 ex_fresh))) =
  snd (set_stack_pointer 100 (snd (set_instruction_pointer 4097 ex_fresh))) /\
  is_valid
    (snd (set_instruction_pointer 4097 (snd (set_stack_pointer 100 ex_fresh))))
  = true.
Proof.
  assert (H2 : 16 <= 100) by lia.
  assert (H3 : 4097 <> nullptr) by (unfold nullptr; lia).
  do 2 (split; [assumption|]).
  exact (setters_commute 100 4097 ex_fresh H2 H3).
Defined.

Lemma run_keeps_config_witness :
  Forall in_place ex_ops /\
  get_config (run ex_ops (Context_ctor zero_registers ContextConfig_default)) =
    ContextConfig_default /\
  reset (run ex_ops (Context_ctor zero_registers ContextConfig_default)) =
    Context_ctor zero_registers ContextConfig_default.
Proof.
  assert (H : Forall in_place ex_ops) by (repeat constructor).
  split; [exact H|].
  exact (run_keeps_config ex_ops zero_registers ContextConfig_default H).
Defined.


Lemma swaps_count_witness :
  is_valid switched_thrice = true /\
  call_site ex_live /\
  get_switch_count switched_thrice <= SIZE_MAX /\
  get_switch_count
    (run (repeat (op_swap ex_live true false) 5) switched_thrice) =
    (get_switch_count switched_thrice + N.of_nat 5) mod 2 ^ 64.
Proof.
  assert (H1 : is_valid switched_thrice = true) by reflexivity.
  assert (H2 : call_site ex_live) by site.
  assert (H3 : get_switch_count switched_thrice <= SIZE_MAX)
    by (vm_compute; discriminate).
  do 3 (split; [assumption|]).
  exact (proj2 (proj2 (swaps_count 5 ex_live false switched_thrice H1 H2 H3))).
Defined.

Lemma no_snapshot_no_transfer_witness :
  objs ex_rejecting !! 1 = Some ex_fresh /\
  (ex_fresh = Context_ctor zero_registers ContextConfig_default \/
   ex_fresh = reset ex_b \/ ex_fresh = moved_from ex_b) /\
  restore 1 ex_rejecting = Some Terminated.
Proof.
  assert (H1 : objs ex_rejecting !! 1 = Some ex_fresh) by reflexivity.
  assert (H2 : ex_fresh = Context_ctor zero_registers ContextConfig_default \/
               ex_fresh = reset ex_b \/ ex_fresh = moved_from ex_b)
    by (left; reflexivity).
  do 2 (split; [assumption|]).
  exact (proj1 (no_snapshot_no_transfer 1 ex_fresh ex_b zero_registers
                  ContextConfig_default ex_rejecting H1 H2)).
Defined.

Lemma save_then_restore_witness :
  objs ex_rejecting !! 1 = Some ex_fresh /\
  call_site (cpu ex_rejecting) /\
  objs ex_saved !! 1 = Some (step (op_save (cpu ex_rejecting)) ex_fresh) /\
  save 1 ex_rejecting = Some (Returned true ex_saved) /\
  restore 1 ex_saved =
    Some (Switched (Call_context_restore 1 true)
            {| cpu := load (registers_ (step (op_save ex_live) ex_fresh))
                        (cpu ex_saved) true;
               objs := objs ex_saved |}).
Proof.
  assert (H1 : objs ex_rejecting !! 1 = Some ex_fresh) by reflexivity.
  assert (H2 : call_site (cpu ex_rejecting)) by site.
  assert (H3 : objs ex_saved !! 1 =
               Some (step (op_save (cpu ex_rejecting)) ex_fresh))
    by reflexivity.
  do 3 (split; [assumption|]).
  destruct (save_then_restore 1 ex_fresh ex_rejecting ex_saved H1 H2 H3)
    as (A & B & _).
  split; [exact A|exact B].
Defined.

Lemma save_valid_iff_witness :
  objs ex_rejecting !! 1 = Some ex_fresh /\
  exists c',
    save 1 ex_rejecting = Some (Returned true (set_obj 1 c' ex_rejecting)) /\
    is_valid_ c' = true.
Proof.
  assert (H1 : objs ex_rejecting !! 1 = Some ex_fresh) by reflexivity.
  split; [exact H1|].
  destruct (save_valid_iff 1 ex_fresh ex_rejecting H1) as (c' & A & B & _).
  exists c'. split; [exact A|exact B].
Defined.

Lemma swap_with_itself_witness :
  objs ex_machine !! 2 = Some ex_b /\
  is_valid ex_b = true /\
  swap 2 2 ex_machine =
    Some (Switched (Call_context_swap 2 2 false)
            (set_obj 2
               (with_registers (capture ex_live (registers_ ex_b) false) ex_b)
               ex_machine)).
Proof.
  assert (H1 : objs ex_machine !! 2 = Some ex_b) by reflexivity.
  assert (H2 : is_valid ex_b = true) by reflexivity.
  do 2 (split; [assumption|]).
  exact (swap_with_itself 2 ex_b ex_machine H1 H2).
Defined.


Lemma move_there_and_back_witness :
  objs ex_machine !! 1 = Some switched_thrice /\
  objs ex_machine !! 2 = Some ex_b /\
  1 <> 2 /\
  exists h1 h2,
    move_assign 2 1 (objs ex_machine) = Some h1 /\
    move_assign 1 2 h1 = Some h2 /\
    h2 !! 1 = Some switched_thrice /\
    h2 !! 2 = Some (moved_from switched_thrice).
Proof.
  assert (H1 : objs ex_machine !! 1 = Some switched_thrice) by reflexivity.
  assert (H2 : objs ex_machine !! 2 = Some ex_b) by reflexivity.
  assert (H3 : 1 <> 2) by lia.
  do 3 (split; [assumption|]).
  destruct (move_there_and_back 1 2 switched_thrice ex_b (objs ex_machine)
              H1 H2 H3) as (h1 & h2 & A & B & C & D & _).
  exists h1, h2. repeat split; assumption.
Defined.

Lemma moved_from_revives_witness :
  is_valid switched_thrice = true /\ 16 <= 100 /\ 4097 <> nullptr /\
  is_valid (moved_from switched_thrice) = false /\
  is_valid (snd (set_instruction_pointer 4097 (moved_from switched_thrice)))
  = true.
Proof.
  assert (H1 : is_valid switched_thrice = true) by reflexivity.
  assert (H2 : 16 <= 100) by lia.
  assert (H3 : 4097 <> nullptr) by (unfold nullptr; lia).
  do 3 (split; [assumption|]).
  destruct (moved_from_revives 100 4097 switched_thrice H1 H2 H3)
    as (A & _ & _ & B & _).
  split; [exact A|exact B].
Defined.
